(** * Verification of the Revit type-parameter automation controller

    Shallow embedding of [src/app/controller.py]:

    - the parameter-grouping transform [Controller.create_json_from_params];
    - the work-item poll loop shared by [Controller.process_with_workitem]
      and [Controller.export_to_ifc], with the status check that follows it;
    - the exception structure of both workflows, of
      [get_view_names_for_file] and of [get_view_names_options];
    - the viewers [Controller.aps_view] and [Controller.aps_view_step2]
      with the page [APSResult] builds.

    Python values that are either a string or [None] (table cells, the
    results of [dict.get]) are [option string].  Calls that leave the
    process (OAuth, HTTP, the vendor SDK, [time.sleep]) are run in a state
    and exception monad: the state records the calls made, their outcomes
    come from an oracle.  Notifications to the user interface
    ([vkt.UserMessage], [vkt.progress_message], [print]) change neither
    control flow nor results and are left out. *)

From Stdlib Require Import List String Ascii ZArith Bool Arith Lia Permutation.
From Equations Require Import Equations.
Import ListNotations.

Local Open Scope string_scope.
Local Open Scope list_scope.
Local Open Scope Z_scope.

(* ===================================================================== *)
(** ** Python values *)
(* ===================================================================== *)

(** A value that is a [str] or [None]. *)
Definition pystr := option string.

(** [a == b] on such values. *)
Definition pystr_eqb (a b : pystr) : bool :=
  match a, b with
  | None, None => true
  | Some x, Some y => String.eqb x y
  | _, _ => false
  end.

(** [str(a)], as an f-string formats it. *)
Definition py_str (a : pystr) : string :=
  match a with
  | None => "None"
  | Some s => s
  end.

(** Truth value: [None] and the empty string are false. *)
Definition truthy (a : pystr) : bool :=
  match a with
  | None => false
  | Some s => negb (String.eqb s "")
  end.

(** [needle in haystack] for strings. *)
Definition contains (needle haystack : string) : Prop :=
  exists pre post, haystack = (pre ++ needle ++ post)%string.

(* ===================================================================== *)
(** ** The parameter table and the job configuration *)
(* ===================================================================== *)

(** A row of [params.step_params.table_section.targets]. *)
Record row := mk_row {
  parameter_name : pystr;
  parameter_group : pystr;
  type_name : pystr;
  family_name : pystr;
  value : pystr
}.

(** An element of a ["Targets"] list. *)
Record target := mk_target {
  TypeName : pystr;
  FamilyName : pystr;
  Value : pystr
}.

(** An element of the list [create_json_from_params] returns. *)
Record param_config := mk_param_config {
  ParameterName : pystr;
  ParameterGroup : pystr;
  Targets : list target
}.

(** The tuple [(row["parameter_name"], row["parameter_group"])]. *)
Definition key := (pystr * pystr)%type.

Definition key_eqb (k1 k2 : key) : bool :=
  pystr_eqb (fst k1) (fst k2) && pystr_eqb (snd k1) (snd k2).

Definition row_key (r : row) : key := (parameter_name r, parameter_group r).

Definition row_target (r : row) : target :=
  {| TypeName := type_name r; FamilyName := family_name r; Value := value r |}.

Definition config_key (c : param_config) : key :=
  (ParameterName c, ParameterGroup c).

(** [grouped]: a [defaultdict(list)].  A Python dict iterates in insertion
    order, so it is an association list with each key once, oldest first. *)
Definition grouped_dict := list (key * list target).

(** [grouped[k].append(t)]: appends to the list stored under [k]; a missing
    key is first inserted, at the end, with the empty list. *)
Fixpoint grouped_append (k : key) (t : target) (d : grouped_dict) : grouped_dict :=
  match d with
  | [] => [(k, [t])]
  | (k', ts) :: d' =>
      if key_eqb k k' then (k', ts ++ [t]) :: d'
      else (k', ts) :: grouped_append k t d'
  end.

(** The first loop of [create_json_from_params]. *)
Definition group_rows (rows : list row) : grouped_dict :=
  fold_left (fun grouped r => grouped_append (row_key r) (row_target r) grouped)
            rows [].

(** The second loop: one configuration per item of [grouped]. *)
Definition build_result (grouped : grouped_dict) : list param_config :=
  map (fun item =>
         {| ParameterName := fst (fst item);
            ParameterGroup := snd (fst item);
            Targets := snd item |})
      grouped.

(** The form data the controller reads ([params]); the nested sections are
    flattened to the four fields the code uses. *)
Record autodesk_file := mk_autodesk_file {
  project_id : string;
  urn : string
}.

Record params := mk_params {
  input_file : option autodesk_file;      (* step_params.inputs.input_file *)
  targets : list row;                     (* step_params.table_section.targets *)
  output_file : option autodesk_file;     (* step_ifc.visualize.output_file *)
  selected_views_for_ifc : list string    (* step_ifc.inputs.selected_views_for_ifc *)
}.

(** [**kwargs]: keyword arguments the framework passes; never read. *)
Definition kwargs := list (string * string).

(** [Controller.create_json_from_params]. *)
Definition create_json_from_params (p : params) (_ : kwargs) : list param_config :=
  build_result (group_rows (targets p)).

(** [sum(len(p['Targets']) for p in type_params_config)], the "Total
    targets" figure of the success message. *)
Definition total_targets (cfg : list param_config) : nat :=
  fold_right (fun c acc => List.length (Targets c) + acc)%nat 0%nat cfg.

(** *** The grouping as the specification words it *)

(** The distinct elements of a list of keys, each at its first occurrence. *)
Fixpoint distinct_keys (ks : list key) : list key :=
  match ks with
  | [] => []
  | k :: ks' => k :: filter (fun k' => negb (key_eqb k' k)) (distinct_keys ks')
  end.

(** The rows that have key [k], in input order. *)
Definition rows_with_key (k : key) (rows : list row) : list row :=
  filter (fun r => key_eqb (row_key r) k) rows.

(** One entry per distinct key, in first-occurrence order, holding the
    projections of the rows with that key. *)
Definition grouping_spec (rows : list row) : list param_config :=
  map (fun k =>
         {| ParameterName := fst k;
            ParameterGroup := snd k;
            Targets := map row_target (rows_with_key k rows) |})
      (distinct_keys (map row_key rows)).

(* ===================================================================== *)
(** ** Exceptions, the outside world and the monad *)
(* ===================================================================== *)

(** Exceptions: [vkt.UserError], and every other subclass of [Exception]
    (what [requests], the SDK and the helpers raise).  [cls] is the class
    name, [msg] is [str(e)]. *)
Inductive exn :=
| UserError (msg : string)
| OtherException (cls msg : string).

(** [str(e)]. *)
Definition exn_str (e : exn) : string :=
  match e with
  | UserError msg => msg
  | OtherException _ msg => msg
  end.

Definition is_UserError (e : exn) : bool :=
  match e with
  | UserError _ => true
  | OtherException _ _ => false
  end.

(** Outcome of a call: a value or a raised exception. *)
Inductive result (A : Type) :=
| Ok (a : A)
| Raise (e : exn).
Arguments Ok {A} a.
Arguments Raise {A} e.

(** What the external services hand back. *)

(** A file version: [version.urn] and [version.attributes]; [displayName]
    is [None] when the key is absent from the attributes. *)
Record file_version := mk_file_version {
  version_urn : string;
  displayName : option string
}.

(** The Model Derivative manifest document. *)
Definition manifest := string.

(** The IFC settings document that [create_ifc_export_json] builds. *)
Definition ifc_settings := string.

(** The work-item document returned by the status endpoint, read through
    [s.get("status")] and [s.get("reportUrl")]: [None] for an absent key. *)
Record workitem_doc := mk_workitem_doc {
  status : pystr;
  reportUrl : pystr
}.

(** A [requests.Response], by the outcome of the two methods called on it. *)
Record response (A : Type) := mk_response {
  raise_for_status : result unit;
  json : result A
}.
Arguments mk_response {A}.
Arguments raise_for_status {A}.
Arguments json {A}.

(** The SDK's activity parameters. *)
Inductive job_content :=
| TypeParamsContent (cfg : list param_config)
| IfcContent (cfg : ifc_settings).

Inductive activity_parameter :=
| ActivityInputParameterAcc
    (name localName verb description : string)
    (required is_engine_input : bool) (project linage_urn : string)
| ActivityJsonParameter
    (name file_name localName verb description : string) (content : job_content)
| ActivityOutputParameterAcc
    (name localName verb description folder_id project file_name : string).

Record WorkItemAcc := mk_WorkItemAcc {
  parameters : list activity_parameter;
  activity_full_alias : string
}.

(** [vkt.OptionListElement(label=..., value=...)]. *)
Record OptionListElement := mk_OptionListElement {
  label : string;
  option_value : string
}.

(** Calls that leave the process, as recorded in the state. *)
Inductive event :=
| EvGetAccessToken (integration : string)
| EvGetLatestVersion (file : autodesk_file) (token : string)
| EvFetchManifest (file : autodesk_file) (token : string)
| EvRequestsGet (url token : string)
| EvParentFolderFromItem (project item token : string)
| EvSetContent (content : job_content)
| EvRunPublicActivity (workitem : WorkItemAcc) (token signature : string)
| EvCreateAccItem (output : activity_parameter) (token : string)
| EvSleep (seconds : Z).

(** The outcome of every call the controller makes outside this file: the
    external services, and the functions and the constant imported from
    [app.helpers].  Token requests and status requests are numbered, so
    that successive calls may answer differently. *)
Record oracle := mk_oracle {
  access_token : nat -> result string;
  latest_version : autodesk_file -> string -> result file_version;
  manifest_of_file : autodesk_file -> string -> result manifest;
  manifest_response : string -> string -> result (response manifest);
  workitem_response : nat -> string -> string -> result (response workitem_doc);
  parent_folder : string -> string -> string -> result string;
  content_set : job_content -> result unit;
  activity_run : WorkItemAcc -> string -> string -> result string;
  acc_item_created : activity_parameter -> string -> result unit;
  uuid4_hex : string;
  urlsafe_b64encode : string -> result string;
  format_exc : exn -> string;
  DEFAULT_REVIT_VERSION : pystr;
  get_revit_version_from_manifest : manifest -> result pystr;
  get_type_parameters_signature : pystr -> result (string * string);
  get_ifc_export_signature : pystr -> result (string * string);
  create_ifc_export_json : list string -> result ifc_settings;
  get_view_names_from_manifest : manifest -> result (list string)
}.

(** The state: the calls made so far, oldest first, and how many of them
    were token requests and status requests. *)
Record world := mk_world {
  calls : list event;
  tokens : nat;
  polls : nat
}.

Definition initial_world : world := {| calls := []; tokens := 0; polls := 0 |}.

Definition log (ev : event) (w : world) : world :=
  {| calls := calls w ++ [ev]; tokens := tokens w; polls := polls w |}.

(** Computations: they thread the state and end in a value or an exception. *)
Definition M (A : Type) : Type := world -> world * result A.

Definition ret {A} (a : A) : M A := fun w => (w, Ok a).

Definition raise {A} (e : exn) : M A := fun w => (w, Raise e).

Definition bind {A B} (m : M A) (k : A -> M B) : M B :=
  fun w =>
    match m w with
    | (w', Ok a) => k a w'
    | (w', Raise e) => (w', Raise e)
    end.

(** [try: body / except Exception as e: handler]. *)
Definition try_except {A} (body : M A) (handler : exn -> M A) : M A :=
  fun w =>
    match body w with
    | (w', Ok a) => (w', Ok a)
    | (w', Raise e) => handler e w'
    end.

(** A call that may raise and touches nothing outside. *)
Definition lift {A} (r : result A) : M A := fun w => (w, r).

(** An external call: recorded, answered by the oracle. *)
Definition call {A} (ev : event) (r : result A) : M A := fun w => (log ev w, r).

Declare Scope monad_scope.
Delimit Scope monad_scope with monad.
Notation "x <- m ;; k" := (bind m (fun x => k))
  (at level 61, m at next level, right associativity) : monad_scope.
Notation "' pat <- m ;; k" := (bind m (fun x => match x with pat => k end))
  (at level 61, pat pattern, m at next level, right associativity) : monad_scope.
Notation "m ;; k" := (bind m (fun _ => k))
  (at level 61, right associativity) : monad_scope.
Local Open Scope monad_scope.

(** The line feed of ["\n"]. *)
Definition nl : string := String (ascii_of_nat 10) EmptyString.

(** [s.rstrip("=")]. *)
Fixpoint rstrip_eq (s : string) : string :=
  match s with
  | EmptyString => EmptyString
  | String c s' =>
      match rstrip_eq s' with
      | EmptyString => if Ascii.eqb c "="%char then EmptyString else String c EmptyString
      | rest => String c rest
      end
  end.

Definition DA_V3 : string := "https://developer.api.autodesk.com/da/us-east/v3".
Definition poll_interval : Z := 10.
Definition max_wait : Z := 600.

(* ===================================================================== *)
(** ** The controller *)
(* ===================================================================== *)

Section Controller.

Variable o : oracle.

(** [vkt.external.OAuth2Integration(name).get_access_token()]. *)
Definition get_access_token (integration : string) : M string :=
  fun w =>
    ({| calls := calls w ++ [EvGetAccessToken integration];
        tokens := S (tokens w);
        polls := polls w |},
     access_token o (tokens w)).

(** [autodesk_file.get_latest_version(token)]. *)
Definition get_latest_version (f : autodesk_file) (token : string) : M file_version :=
  call (EvGetLatestVersion f token) (latest_version o f token).

(** [fetch_manifest(file, token)] of [app.helpers]. *)
Definition fetch_manifest (f : autodesk_file) (token : string) : M manifest :=
  call (EvFetchManifest f token) (manifest_of_file o f token).

(** [parent_folder_from_item(project_id=..., item_id=..., token=...)]. *)
Definition parent_folder_from_item (project item token : string) : M string :=
  call (EvParentFolderFromItem project item token) (parent_folder o project item token).

(** [input_json.set_content(content)]. *)
Definition set_content (content : job_content) : M unit :=
  call (EvSetContent content) (content_set o content).

(** [workitem.run_public_activity(token3lo=..., activity_signature=...)]. *)
Definition run_public_activity (wi : WorkItemAcc) (token signature : string) : M string :=
  call (EvRunPublicActivity wi token signature) (activity_run o wi token signature).

(** [output.create_acc_item(token=...)]. *)
Definition create_acc_item (output : activity_parameter) (token : string) : M unit :=
  call (EvCreateAccItem output token) (acc_item_created o output token).

(** [time.sleep(seconds)]. *)
Definition time_sleep (seconds : Z) : M unit :=
  call (EvSleep seconds) (Ok tt).

(** [get_workitem_status(wi_id, token)]: one GET on the work-item URL,
    [raise_for_status], then the parsed body. *)
Definition get_workitem_status (wi_id token : string) : M workitem_doc :=
  let url := (DA_V3 ++ "/workitems/" ++ wi_id)%string in
  r <- (fun w =>
          ({| calls := calls w ++ [EvRequestsGet url token];
              tokens := tokens w;
              polls := S (polls w) |},
           workitem_response o (polls w) url token)) ;;
  lift (raise_for_status r) ;;
  lift (json r).

(** [final_status in ("success", "failed", "cancelled")]. *)
Definition is_terminal (final_status : pystr) : bool :=
  existsb (pystr_eqb final_status)
          [Some "success"; Some "failed"; Some "cancelled"]%string.

(** How many more times the loop test [elapsed <= max_wait] can succeed;
    the measure that makes the loop terminate. *)
Definition iterations_left (elapsed : Z) : nat :=
  Z.to_nat ((max_wait - elapsed) / poll_interval + 1).

Arguments iterations_left : simpl never.

(** The poll loop of [process_with_workitem] (lines 333-343) and of
    [export_to_ifc] (lines 528-538), entered with [elapsed = 0] and both
    [final_status] and [report_url] set to [None]; it yields the two
    variables as the loop leaves them. *)
Equations? poll_loop (wi_id token : string) (elapsed : Z)
    (final_status report_url : pystr) : M (pystr * pystr)
    by wf (iterations_left elapsed) lt :=
  poll_loop wi_id token elapsed final_status report_url
    with Z_le_dec elapsed max_wait := {
    | right _ => ret (final_status, report_url)
    | left _ =>
        s <- get_workitem_status wi_id token ;;
        let final_status := status s in
        let report_url := reportUrl s in
        if is_terminal final_status then ret (final_status, report_url)
        else
          time_sleep poll_interval ;;
          poll_loop wi_id token (elapsed + poll_interval) final_status report_url
    }.
Proof.
  unfold iterations_left, max_wait, poll_interval in *.
  replace (600 - (elapsed + 10)) with ((600 - elapsed) + (-1) * 10) by lia.
  rewrite Z.div_add by lia.
  assert (0 <= (600 - elapsed) / 10) by (apply Z.div_pos; lia).
  lia.
Qed.

(** The check after the loop (lines 345-349 and 540-544); [what] is
    ["Automation"] in one workflow and ["IFC export"] in the other. *)
Definition check_final_status (what : string) (final_status report_url : pystr) : M unit :=
  if negb (pystr_eqb final_status (Some "success"%string)) then
    let msg := (what ++ " did not finish with success. Status: "
                     ++ py_str final_status)%string in
    let msg := if truthy report_url
               then (msg ++ nl ++ "Report URL: " ++ py_str report_url)%string
               else msg in
    raise (UserError msg)
  else ret tt.

(** The version detection both workflows share: its own [try]/[except]
    falls back to [DEFAULT_REVIT_VERSION]. *)
Definition detect_revit_version (f : autodesk_file) (token : string) : M pystr :=
  try_except
    (manifest <- fetch_manifest f token ;;
     revit_version <- lift (get_revit_version_from_manifest o manifest) ;;
     if negb (truthy revit_version) then ret (DEFAULT_REVIT_VERSION o)
     else ret revit_version)
    (fun _ => ret (DEFAULT_REVIT_VERSION o)).

(** [attrs.get("displayName", "model")]. *)
Definition display_name_of (v : file_version) : string :=
  match displayName v with
  | Some n => n
  | None => "model"
  end.

(** [uuid.uuid4().hex[:8]]. *)
Definition short_uuid : string := substring 0 8 (uuid4_hex o).

(** Steps 1 to 7 of [process_with_workitem] (lines 225-323): everything in
    the [try] up to the submission of the work item.  It yields the names
    the rest of the [try] uses: [workitem_id] and [output_file]. *)
Definition submit_type_parameters_job (p : params) (access_token : string)
    : M (string * activity_parameter) :=
  rvt_file <- match input_file p with
              | None => raise (UserError "Please select an input Revit file")
              | Some f => ret f
              end ;;
  let PROJECT_ID := project_id rvt_file in
  let INPUT_ITEM_LINEAGE_URN := urn rvt_file in
  token <- get_access_token "aps-integration-design" ;;
  version <- get_latest_version rvt_file token ;;
  let display_name := display_name_of version in
  revit_version <- detect_revit_version rvt_file access_token ;;
  '(signature, alias) <- lift (get_type_parameters_signature o revit_version) ;;
  let input_revit :=
    ActivityInputParameterAcc "rvtFile" "input.rvt" "get" "Input Revit File"
                              true true PROJECT_ID INPUT_ITEM_LINEAGE_URN in
  folder_id <- parent_folder_from_item PROJECT_ID INPUT_ITEM_LINEAGE_URN access_token ;;
  let type_params_config := create_json_from_params p [] in
  let input_json :=
    ActivityJsonParameter "configJson" "revit_type_params.json"
                          "revit_type_params.json" "get"
                          "Type parameter JSON configuration"
                          (TypeParamsContent type_params_config) in
  set_content (TypeParamsContent type_params_config) ;;
  let output_filename := (display_name ++ "_" ++ short_uuid ++ ".rvt")%string in
  let output_file :=
    ActivityOutputParameterAcc "result" "output.rvt" "put"
                               "Result Revit model with added parameters"
                               folder_id PROJECT_ID output_filename in
  let workitem :=
    {| parameters := [input_revit; input_json; output_file];
       activity_full_alias := alias |} in
  workitem_id <- run_public_activity workitem access_token signature ;;
  ret (workitem_id, output_file).

(** The body of the [try] of [process_with_workitem] (lines 222-369):
    steps 1 to 7, the poll loop, the status check and step 9. *)
Definition process_with_workitem_body (p : params) (access_token : string)
    : M unit :=
  '(workitem_id, output_file) <- submit_type_parameters_job p access_token ;;
  '(final_status, report_url) <- poll_loop workitem_id access_token 0 None None ;;
  check_final_status "Automation" final_status report_url ;;
  create_acc_item output_file access_token.

(** [Controller.process_with_workitem]. *)
Definition process_with_workitem (p : params) (kw : kwargs) : M unit :=
  access_token <- get_access_token "aps-integration-design" ;;
  try_except
    (process_with_workitem_body p access_token)
    (fun e =>
       let error_detail := format_exc o e in
       raise (UserError ("Error in Automation workflow: " ++ exn_str e
                           ++ nl ++ nl ++ "Details:" ++ nl ++ error_detail)%string)).

(** Steps 1 to 8 of [export_to_ifc] (lines 418-518), up to the submission of
    the work item; it yields [workitem_id] and [output_zip]. *)
Definition submit_ifc_export_job (p : params) (access_token : string)
    : M (string * activity_parameter) :=
  rvt_file <- match output_file p with
              | None => raise (UserError
                  "Please select the updated Revit file in the 'View Updated Model' section")
              | Some f => ret f
              end ;;
  match selected_views_for_ifc p with
  | [] => raise (UserError "Please select at least one view to export to IFC.")
  | _ :: _ => ret tt
  end ;;
  let PROJECT_ID := project_id rvt_file in
  let INPUT_ITEM_LINEAGE_URN := urn rvt_file in
  revit_version <- detect_revit_version rvt_file access_token ;;
  '(signature, alias) <- lift (get_ifc_export_signature o revit_version) ;;
  let input_revit :=
    ActivityInputParameterAcc "rvtFile" "input.rvt" "get"
                              "Input Revit File for IFC export"
                              true true PROJECT_ID INPUT_ITEM_LINEAGE_URN in
  folder_id <- parent_folder_from_item PROJECT_ID INPUT_ITEM_LINEAGE_URN access_token ;;
  ifc_config <- lift (create_ifc_export_json o (selected_views_for_ifc p)) ;;
  let input_json :=
    ActivityJsonParameter "ifcSettings" "ifc_settings.json" "ifc_settings.json"
                          "get" "IFC Export Settings" (IfcContent ifc_config) in
  set_content (IfcContent ifc_config) ;;
  version <- get_latest_version rvt_file access_token ;;
  let display_name := display_name_of version in
  let output_zip_filename := (display_name ++ "_IFC_" ++ short_uuid ++ ".zip")%string in
  let output_zip :=
    ActivityOutputParameterAcc "result" "result.zip" "put" "Zipped IFC files"
                               folder_id PROJECT_ID output_zip_filename in
  let workitem :=
    {| parameters := [input_revit; input_json; output_zip];
       activity_full_alias := alias |} in
  workitem_id <- run_public_activity workitem access_token signature ;;
  ret (workitem_id, output_zip).

(** The body of the [try] of [export_to_ifc] (lines 415-564): steps 1 to 8,
    the poll loop, the status check and step 10. *)
Definition export_to_ifc_body (p : params) (access_token : string) : M unit :=
  '(workitem_id, output_zip) <- submit_ifc_export_job p access_token ;;
  '(final_status, report_url) <- poll_loop workitem_id access_token 0 None None ;;
  check_final_status "IFC export" final_status report_url ;;
  create_acc_item output_zip access_token.

(** [Controller.export_to_ifc]. *)
Definition export_to_ifc (p : params) (kw : kwargs) : M unit :=
  access_token <- get_access_token "aps-integration-design" ;;
  try_except
    (export_to_ifc_body p access_token)
    (fun e =>
       let error_detail := format_exc o e in
       raise (UserError ("Error in IFC Export workflow: " ++ exn_str e
                           ++ nl ++ nl ++ "Details:" ++ nl ++ error_detail)%string)).

(** The body of the [try] of [get_view_names_for_file] (lines 54-62). *)
Definition get_view_names_for_file_body (version_urn : string) : M (list string) :=
  token <- get_access_token "aps-integration-design" ;;
  encoded <- lift (urlsafe_b64encode o version_urn) ;;
  let encoded_urn := rstrip_eq encoded in
  let manifest_url :=
    ("https://developer.api.autodesk.com/modelderivative/v2/designdata/"
       ++ encoded_urn ++ "/manifest")%string in
  resp <- call (EvRequestsGet manifest_url token)
               (manifest_response o manifest_url token) ;;
  lift (raise_for_status resp) ;;
  manifest <- lift (json resp) ;;
  lift (get_view_names_from_manifest o manifest).

(** [get_view_names_for_file(version_urn=...)]; the [vkt.memoize] cache
    around it is the framework's and is not modelled. *)
Definition get_view_names_for_file (version_urn : string) : M (list string) :=
  try_except (get_view_names_for_file_body version_urn) (fun _ => ret []).

(** [get_view_names_options(params, **kwargs)]. *)
Definition get_view_names_options (p : params) (kw : kwargs) : M (list OptionListElement) :=
  match output_file p with
  | None => ret []
  | Some autodesk_file =>
      token <- get_access_token "aps-integration-design" ;;
      version <- get_latest_version autodesk_file token ;;
      view_names <- get_view_names_for_file (version_urn version) ;;
      ret (map (fun name => {| label := name; option_value := name |}) view_names)
  end.

End Controller.

(* ===================================================================== *)
(** ** Notions used to state the properties of the poll loop *)
(* ===================================================================== *)

(** What [get_workitem_status] answers to the status request numbered [n]:
    the parsed document, or the exception of the request, of
    [raise_for_status] or of the parser. *)
Definition status_reply (o : oracle) (n : nat) (wi_id token : string)
    : result workitem_doc :=
  match workitem_response o n (DA_V3 ++ "/workitems/" ++ wi_id)%string token with
  | Ok r =>
      match raise_for_status r with
      | Ok _ => json r
      | Raise e => Raise e
      end
  | Raise e => Raise e
  end.

(** The state once one more status request has been made. *)
Definition after_poll (wi_id token : string) (w : world) : world :=
  {| calls := calls w ++ [EvRequestsGet (DA_V3 ++ "/workitems/" ++ wi_id)%string token];
     tokens := tokens w;
     polls := S (polls w) |}.

(** The state after [n] rounds of the loop that did not break: a status
    request followed by a sleep, [n] times. *)
Fixpoint after_rounds (n : nat) (wi_id token : string) (w : world) : world :=
  match n with
  | O => w
  | S n' => after_rounds n' wi_id token
                         (log (EvSleep poll_interval) (after_poll wi_id token w))
  end.

(** The bound the specification gives on the number of status requests:
    [ceil(max_wait / poll_interval) + 1]. *)
Definition max_polls : nat :=
  (Z.to_nat ((max_wait + poll_interval - 1) / poll_interval) + 1)%nat.

(** The exception the [except] clause of a workflow raises for [e]:
    [vkt.UserError(f"{heading}{str(e)}\n\nDetails:\n{error_detail}")]. *)
Definition resurfaced (o : oracle) (heading : string) (e : exn) : exn :=
  UserError (heading ++ exn_str e ++ nl ++ nl ++ "Details:" ++ nl ++ format_exc o e)%string.

(** The state in which the [try] of a workflow starts: one token request
    has been made. *)
Definition after_token (w : world) : world :=
  {| calls := calls w ++ [EvGetAccessToken "aps-integration-design"];
     tokens := S (tokens w);
     polls := polls w |}.

(** The seconds spent in [time.sleep] so far. *)
Definition slept (w : world) : Z :=
  fold_right (fun ev acc => match ev with EvSleep s => s + acc | _ => acc end)
             0 (calls w).

(* ===================================================================== *)
(** ** Sample inputs *)
(* ===================================================================== *)

(** The default row of the table (lines 100-106) and two more: a second
    target of the same parameter and a parameter of another group. *)
Definition default_row : row :=
  {| parameter_name := Some "Carbon_Dataset_Code";
     parameter_group := Some "PG_DATA";
     type_name := Some "400x400mm";
     family_name := Some "CO_01_001_Geheide_prefab_betonpaal";
     value := Some "95" |}.

Definition sample_rows : list row :=
  [ default_row;
    {| parameter_name := Some "Fire_Rating"; parameter_group := Some "PG_TEXT";
       type_name := Some "Wall-200"; family_name := Some "Basic Wall";
       value := Some "60" |};
    {| parameter_name := Some "Carbon_Dataset_Code"; parameter_group := Some "PG_DATA";
       type_name := Some "500x500mm";
       family_name := Some "CO_01_001_Geheide_prefab_betonpaal";
       value := None |} ].

Definition sample_file : autodesk_file :=
  {| project_id := "b.project"; urn := "urn:adsk.wipprod:dm.lineage:abc" |}.

Definition sample_params : params :=
  {| input_file := Some sample_file;
     targets := sample_rows;
     output_file := Some sample_file;
     selected_views_for_ifc := ["3D"%string] |}.

(** The same table on a form where nothing else is filled in. *)
Definition table_only_params : params :=
  {| input_file := None;
     targets := sample_rows;
     output_file := None;
     selected_views_for_ifc := [] |}.

(** A work item that is in progress for three requests and then succeeds. *)
Definition succeeds_at_fourth (n : nat) : workitem_doc :=
  if (n <? 3)%nat
  then {| status := Some "inprogress"%string; reportUrl := None |}
  else {| status := Some "success"%string;
          reportUrl := Some "https://dasprod-store/report.txt"%string |}.

(** A work item that never leaves the queue. *)
Definition never_finishes (_ : nat) : workitem_doc :=
  {| status := Some "pending"%string; reportUrl := None |}.

(** A work item that fails at once and has a report. *)
Definition fails_at_once (_ : nat) : workitem_doc :=
  {| status := Some "failed"%string;
     reportUrl := Some "https://dasprod-store/report.txt"%string |}.

(** A world in which every call but the token request succeeds; the token
    request numbered [n] answers [token_at n] and the status request
    numbered [n] reports [status_at n]. *)
Definition sample_oracle_with (token_at : nat -> result string)
    (status_at : nat -> workitem_doc) : oracle :=
  {| access_token := token_at;
     latest_version := fun _ _ =>
       Ok {| version_urn := "urn:adsk.wipprod:fs.file:vf.abc?version=1";
             displayName := Some "house.rvt"%string |};
     manifest_of_file := fun _ _ => Ok "{}"%string;
     manifest_response := fun _ _ =>
       Ok {| raise_for_status := Ok tt; json := Ok "{}"%string |};
     workitem_response := fun n _ _ =>
       Ok {| raise_for_status := Ok tt; json := Ok (status_at n) |};
     parent_folder := fun _ _ _ => Ok "urn:adsk.wipprod:fs.folder:co.xyz"%string;
     content_set := fun _ => Ok tt;
     activity_run := fun _ _ _ => Ok "workitem-1"%string;
     acc_item_created := fun _ _ => Ok tt;
     uuid4_hex := "0123456789abcdef0123456789abcdef";
     urlsafe_b64encode := fun s => Ok s;
     format_exc := fun _ => "Traceback (most recent call last): ..."%string;
     DEFAULT_REVIT_VERSION := Some "2024"%string;
     get_revit_version_from_manifest := fun _ => Ok (Some "2025"%string);
     get_type_parameters_signature := fun _ => Ok ("signature", "owner.Activity+prod")%string;
     get_ifc_export_signature := fun _ => Ok ("signature", "owner.IfcExport+prod")%string;
     create_ifc_export_json := fun _ => Ok "{}"%string;
     get_view_names_from_manifest := fun _ => Ok ["3D"%string] |}.

(** A world in which every call succeeds. *)
Definition sample_oracle (status_at : nat -> workitem_doc) : oracle :=
  sample_oracle_with (fun _ => Ok "token"%string) status_at.

(** A world in which the OAuth integration hands out no token. *)
Definition token_denied_oracle : oracle :=
  sample_oracle_with
    (fun _ => Raise (OtherException "HTTPError" "401 Client Error: Unauthorized"))
    never_finishes.

(* ===================================================================== *)
(** ** The viewer *)
(* ===================================================================== *)

(** [s.replace(old, new)]: every occurrence of [old], found from the left
    and not overlapping the previous one, becomes [new].  [replace_from]
    walks [s]; [skip] counts the characters of an occurrence still to pass. *)
Fixpoint replace_from (old new : string) (skip : nat) (s : string) : string :=
  match s with
  | EmptyString => EmptyString
  | String c s' =>
      match skip with
      | S k => replace_from old new k s'
      | O =>
          if prefix old (String c s')
          then (new ++ replace_from old new (String.length old - 1) s')%string
          else String c (replace_from old new 0 s')
      end
  end.

(** With the empty [old], Python puts [new] before every character and at
    the end. *)
Fixpoint insert_after_each (new s : string) : string :=
  match s with
  | EmptyString => EmptyString
  | String c s' => String c (new ++ insert_after_each new s')
  end.

Definition str_replace (old new s : string) : string :=
  match old with
  | EmptyString => (new ++ insert_after_each new s)%string
  | String _ _ => replace_from old new 0 s
  end.

(** A viewable of the translated model, as [get_viewables_from_urn] lists it. *)
Definition viewable := string.

(** What the viewer reads besides the services above: the HTML template
    next to the controller, [get_viewables_from_urn] of [app.helpers] and
    [json.dumps] on a list of viewables. *)
Record viewer_oracle := mk_viewer_oracle {
  viewer_html : result string;
  get_viewables_from_urn : string -> string -> result (list viewable);
  json_dumps : list viewable -> string
}.

(** [APSResult]: a [vkt.WebResult], by the page it is built with. *)
Record APSResult := mk_APSResult {
  html : string
}.

Section Viewer.

Variable o : oracle.
Variable v : viewer_oracle.

(** [APSResult.__init__(urn, token)] (lines 145-158).  The requests that
    [get_viewables_from_urn] makes are the helper's and are not recorded. *)
Definition APSResult_init (urn token : string) : M APSResult :=
  viewables <- (if negb (String.eqb urn "")
                then try_except (lift (get_viewables_from_urn v token urn))
                                (fun _ => ret [])
                else ret []) ;;
  page <- lift (viewer_html v) ;;
  let page := str_replace "APS_TOKEN_PLACEHOLDER" token page in
  let page := str_replace "URN_PLACEHOLDER" urn page in
  let page := str_replace "VIEWABLES_PLACEHOLDER" (json_dumps v viewables) page in
  ret {| html := page |}.

(** [Controller.aps_view] (lines 164-194). *)
Definition aps_view (p : params) (kw : kwargs) : M APSResult :=
  token <- get_access_token o "aps-integration-design" ;;
  autodesk_file <- match input_file p with
                   | None => raise (UserError
                       "Please select a model in the Autodesk file field")
                   | Some f => ret f
                   end ;;
  version <- get_latest_version o autodesk_file token ;;
  let urn := version_urn version in
  encoded <- lift (urlsafe_b64encode o urn) ;;
  let encoded_urn := rstrip_eq encoded in
  try_except
    (manifest <- fetch_manifest o autodesk_file token ;;
     revit_version <- lift (get_revit_version_from_manifest o manifest) ;;
     ret tt)
    (fun _ => ret tt) ;;
  APSResult_init encoded_urn token.

(** [Controller.aps_view_step2] (lines 196-210). *)
Definition aps_view_step2 (p : params) (kw : kwargs) : M APSResult :=
  token <- get_access_token o "aps-integration-design" ;;
  autodesk_file <- match output_file p with
                   | None => raise (UserError
                       "Please select the updated Revit file in the 'View Updated Model' section")
                   | Some f => ret f
                   end ;;
  version <- get_latest_version o autodesk_file token ;;
  let urn := version_urn version in
  encoded <- lift (urlsafe_b64encode o urn) ;;
  let encoded_urn := rstrip_eq encoded in
  APSResult_init encoded_urn token.

End Viewer.

(* ===================================================================== *)
(** ** Further notions used in statements *)
(* ===================================================================== *)

(** The Revit version a workflow works with for file [f]: the one read from
    the manifest when that succeeds and is not empty, the default otherwise. *)
Definition revit_version_for (o : oracle) (f : autodesk_file) (token : string)
    : pystr :=
  match manifest_of_file o f token with
  | Ok m =>
      match get_revit_version_from_manifest o m with
      | Ok rv => if truthy rv then rv else DEFAULT_REVIT_VERSION o
      | Raise _ => DEFAULT_REVIT_VERSION o
      end
  | Raise _ => DEFAULT_REVIT_VERSION o
  end.

(** The calls a poll loop may make for work item [wi_id]. *)
Definition is_loop_event (wi_id token : string) (ev : event) : Prop :=
  ev = EvRequestsGet (DA_V3 ++ "/workitems/" ++ wi_id)%string token
  \/ ev = EvSleep poll_interval.

(** The manifest URL [get_view_names_for_file] requests for an encoded URN. *)
Definition manifest_url (encoded_urn : string) : string :=
  ("https://developer.api.autodesk.com/modelderivative/v2/designdata/"
     ++ encoded_urn ++ "/manifest")%string.

(** The last character of a string, if any. *)
Fixpoint last_char (s : string) : option ascii :=
  match s with
  | EmptyString => None
  | String c EmptyString => Some c
  | String _ s' => last_char s'
  end.

(** A string of [n] padding characters. *)
Fixpoint padding (n : nat) : string :=
  match n with
  | O => EmptyString
  | S n' => String "="%char (padding n')
  end.

(** A viewer whose template shows the three placeholders. *)
Definition sample_viewer : viewer_oracle :=
  {| viewer_html :=
       Ok "token=APS_TOKEN_PLACEHOLDER urn=URN_PLACEHOLDER views=VIEWABLES_PLACEHOLDER"%string;
     get_viewables_from_urn := fun _ _ => Ok ["3D"; "Level 1"]%string;
     json_dumps := fun vs =>
       match vs with
       | [] => "[]"%string
       | _ => "[...]"%string
       end |}.

(** The same viewer when the viewables cannot be fetched. *)
Definition viewer_without_viewables : viewer_oracle :=
  {| viewer_html := viewer_html sample_viewer;
     get_viewables_from_urn := fun _ _ =>
       Raise (OtherException "HTTPError" "404 Client Error: Not Found");
     json_dumps := json_dumps sample_viewer |}.

(** A world in which the manifest cannot be fetched. *)
Definition manifest_missing_oracle : oracle :=
  {| access_token := access_token (sample_oracle never_finishes);
     latest_version := latest_version (sample_oracle never_finishes);
     manifest_of_file := fun _ _ =>
       Raise (OtherException "HTTPError" "404 Client Error: Not Found");
     manifest_response := fun _ _ =>
       Raise (OtherException "ConnectionError" "connection refused");
     workitem_response := workitem_response (sample_oracle never_finishes);
     parent_folder := parent_folder (sample_oracle never_finishes);
     content_set := content_set (sample_oracle never_finishes);
     activity_run := activity_run (sample_oracle never_finishes);
     acc_item_created := acc_item_created (sample_oracle never_finishes);
     uuid4_hex := uuid4_hex (sample_oracle never_finishes);
     urlsafe_b64encode := fun s => Ok (s ++ "==")%string;
     format_exc := format_exc (sample_oracle never_finishes);
     DEFAULT_REVIT_VERSION := DEFAULT_REVIT_VERSION (sample_oracle never_finishes);
     get_revit_version_from_manifest :=
       get_revit_version_from_manifest (sample_oracle never_finishes);
     get_type_parameters_signature :=
       get_type_parameters_signature (sample_oracle never_finishes);
     get_ifc_export_signature :=
       get_ifc_export_signature (sample_oracle never_finishes);
     create_ifc_export_json := create_ifc_export_json (sample_oracle never_finishes);
     get_view_names_from_manifest :=
       get_view_names_from_manifest (sample_oracle never_finishes) |}.

(** A world in which the third status request times out. *)
Definition third_request_fails_oracle : oracle :=
  {| access_token := access_token (sample_oracle never_finishes);
     latest_version := latest_version (sample_oracle never_finishes);
     manifest_of_file := manifest_of_file (sample_oracle never_finishes);
     manifest_response := manifest_response (sample_oracle never_finishes);
     workitem_response := fun n url token =>
       if (n =? 2)%nat
       then Raise (OtherException "ReadTimeout" "read timed out")
       else workitem_response (sample_oracle never_finishes) n url token;
     parent_folder := parent_folder (sample_oracle never_finishes);
     content_set := content_set (sample_oracle never_finishes);
     activity_run := activity_run (sample_oracle never_finishes);
     acc_item_created := acc_item_created (sample_oracle never_finishes);
     uuid4_hex := uuid4_hex (sample_oracle never_finishes);
     urlsafe_b64encode := urlsafe_b64encode (sample_oracle never_finishes);
     format_exc := format_exc (sample_oracle never_finishes);
     DEFAULT_REVIT_VERSION := DEFAULT_REVIT_VERSION (sample_oracle never_finishes);
     get_revit_version_from_manifest :=
       get_revit_version_from_manifest (sample_oracle never_finishes);
     get_type_parameters_signature :=
       get_type_parameters_signature (sample_oracle never_finishes);
     get_ifc_export_signature :=
       get_ifc_export_signature (sample_oracle never_finishes);
     create_ifc_export_json := create_ifc_export_json (sample_oracle never_finishes);
     get_view_names_from_manifest :=
       get_view_names_from_manifest (sample_oracle never_finishes) |}.

(** A work item that succeeds at the first request. *)
Definition succeeds_at_once (_ : nat) : workitem_doc :=
  {| status := Some "success"%string;
     reportUrl := Some "https://dasprod-store/report.txt"%string |}.

(** A world in which the work item succeeds but the ACC item of its output
    cannot be created. *)
Definition acc_item_refused_oracle : oracle :=
  {| access_token := access_token (sample_oracle succeeds_at_once);
     latest_version := latest_version (sample_oracle succeeds_at_once);
     manifest_of_file := manifest_of_file (sample_oracle succeeds_at_once);
     manifest_response := manifest_response (sample_oracle succeeds_at_once);
     workitem_response := workitem_response (sample_oracle succeeds_at_once);
     parent_folder := parent_folder (sample_oracle succeeds_at_once);
     content_set := content_set (sample_oracle succeeds_at_once);
     activity_run := activity_run (sample_oracle succeeds_at_once);
     acc_item_created := fun _ _ =>
       Raise (OtherException "HTTPError" "403 Client Error: Forbidden");
     uuid4_hex := uuid4_hex (sample_oracle succeeds_at_once);
     urlsafe_b64encode := urlsafe_b64encode (sample_oracle succeeds_at_once);
     format_exc := format_exc (sample_oracle succeeds_at_once);
     DEFAULT_REVIT_VERSION := DEFAULT_REVIT_VERSION (sample_oracle succeeds_at_once);
     get_revit_version_from_manifest :=
       get_revit_version_from_manifest (sample_oracle succeeds_at_once);
     get_type_parameters_signature :=
       get_type_parameters_signature (sample_oracle succeeds_at_once);
     get_ifc_export_signature :=
       get_ifc_export_signature (sample_oracle succeeds_at_once);
     create_ifc_export_json := create_ifc_export_json (sample_oracle succeeds_at_once);
     get_view_names_from_manifest :=
       get_view_names_from_manifest (sample_oracle succeeds_at_once) |}.

(** A form with no file selected in either step. *)
Definition empty_form : params :=
  {| input_file := None;
     targets := [default_row];
     output_file := None;
     selected_views_for_ifc := [] |}.

(** A form with the updated file selected but no view chosen. *)
Definition no_view_params : params :=
  {| input_file := Some sample_file;
     targets := [default_row];
     output_file := Some sample_file;
     selected_views_for_ifc := [] |}.

(* ===================================================================== *)
(** ** Properties of the grouping transform *)
(* ===================================================================== *)

Lemma pystr_eqb_eq (a b : pystr) : pystr_eqb a b = true <-> a = b.
Proof.
  destruct a as [x|], b as [y|]; simpl; split; intros H;
    try discriminate; try reflexivity.
  - apply String.eqb_eq in H. now subst.
  - injection H as ->. apply String.eqb_refl.
Qed.

Lemma key_eqb_eq (k1 k2 : key) : key_eqb k1 k2 = true <-> k1 = k2.
Proof.
  destruct k1 as [a1 b1], k2 as [a2 b2]. unfold key_eqb. simpl.
  rewrite andb_true_iff, !pystr_eqb_eq. split.
  - intros [-> ->]. reflexivity.
  - intros H. injection H as -> ->. auto.
Qed.

Lemma key_eqb_refl (k : key) : key_eqb k k = true.
Proof. now apply key_eqb_eq. Qed.

Lemma key_eqb_neq (k1 k2 : key) : key_eqb k1 k2 = false <-> k1 <> k2.
Proof.
  rewrite <- key_eqb_eq. destruct (key_eqb k1 k2); split; congruence.
Qed.

Lemma key_eqb_sym (k1 k2 : key) : key_eqb k1 k2 = key_eqb k2 k1.
Proof.
  destruct (key_eqb k2 k1) eqn:E.
  - apply key_eqb_eq in E. subst. apply key_eqb_refl.
  - apply key_eqb_neq in E. apply key_eqb_neq. congruence.
Qed.

Lemma existsb_key_In (k : key) (ks : list key) :
  existsb (key_eqb k) ks = true <-> In k ks.
Proof.
  rewrite existsb_exists. split.
  - intros [k' [Hin Heq]]. apply key_eqb_eq in Heq. now subst.
  - intros Hin. exists k. split; [assumption | apply key_eqb_refl].
Qed.

(** *** [distinct_keys] keeps every key once, at its first occurrence *)

Lemma distinct_keys_In (k : key) (ks : list key) :
  In k (distinct_keys ks) <-> In k ks.
Proof.
  induction ks as [|k0 ks IH]; simpl; [tauto|].
  rewrite filter_In, IH, negb_true_iff, key_eqb_neq.
  destruct (key_eqb k k0) eqn:E.
  - apply key_eqb_eq in E. subst. tauto.
  - apply key_eqb_neq in E. intuition congruence.
Qed.

Lemma distinct_keys_NoDup (ks : list key) : NoDup (distinct_keys ks).
Proof.
  induction ks as [|k0 ks IH]; simpl; constructor.
  - rewrite filter_In, negb_true_iff, key_eqb_refl. intros [_ H]. discriminate.
  - now apply NoDup_filter.
Qed.

Lemma distinct_keys_snoc (ks : list key) (k : key) :
  distinct_keys (ks ++ [k]) =
  if existsb (key_eqb k) ks then distinct_keys ks else distinct_keys ks ++ [k].
Proof.
  induction ks as [|k0 ks IH]; simpl; [reflexivity|].
  rewrite IH. destruct (key_eqb k k0) eqn:E; simpl.
  - destruct (existsb (key_eqb k) ks); [reflexivity|].
    rewrite filter_app. simpl. rewrite E. simpl. now rewrite app_nil_r.
  - destruct (existsb (key_eqb k) ks); [reflexivity|].
    rewrite filter_app. simpl. rewrite E. reflexivity.
Qed.

(** *** What one [grouped[key].append(...)] does to a dict with distinct keys *)

Lemma grouped_append_spec (k : key) (t : target) (f : key -> list target)
    (ks : list key) :
  NoDup ks ->
  grouped_append k t (map (fun k' => (k', f k')) ks) =
  map (fun k' => (k', if key_eqb k k' then f k' ++ [t] else f k')) ks
      ++ (if existsb (key_eqb k) ks then [] else [(k, [t])]).
Proof.
  induction 1 as [|k0 ks Hk0 Hnd IH]; simpl; [reflexivity|].
  destruct (key_eqb k k0) eqn:E; simpl.
  - rewrite app_nil_r. f_equal. apply map_ext_in. intros k' Hin.
    destruct (key_eqb k k') eqn:E'; [|reflexivity].
    apply key_eqb_eq in E, E'. subst. contradiction.
  - now rewrite IH.
Qed.

Lemma group_rows_snoc (rows : list row) (r : row) :
  group_rows (rows ++ [r]) =
  grouped_append (row_key r) (row_target r) (group_rows rows).
Proof. unfold group_rows. now rewrite fold_left_app. Qed.

Lemma rows_with_key_snoc (k : key) (rows : list row) (r : row) :
  rows_with_key k (rows ++ [r]) =
  rows_with_key k rows ++ (if key_eqb (row_key r) k then [r] else []).
Proof. unfold rows_with_key. now rewrite filter_app. Qed.

Lemma rows_with_key_absent (k : key) (rows : list row) :
  ~ In k (map row_key rows) -> rows_with_key k rows = [].
Proof.
  intros Hnot. unfold rows_with_key.
  induction rows as [|r rows IH]; simpl in *; [reflexivity|].
  destruct (key_eqb (row_key r) k) eqn:E.
  - apply key_eqb_eq in E. tauto.
  - apply IH. tauto.
Qed.

(** The dict after the first loop, in closed form. *)
Lemma group_rows_closed_form (rows : list row) :
  group_rows rows =
  map (fun k => (k, map row_target (rows_with_key k rows)))
      (distinct_keys (map row_key rows)).
Proof.
  induction rows as [|r rows IH] using rev_ind; [reflexivity|].
  rewrite group_rows_snoc, IH.
  rewrite grouped_append_spec by apply distinct_keys_NoDup.
  rewrite map_app. simpl. rewrite distinct_keys_snoc.
  assert (Hex : existsb (key_eqb (row_key r)) (distinct_keys (map row_key rows))
                = existsb (key_eqb (row_key r)) (map row_key rows)).
  { apply eq_true_iff_eq. rewrite !existsb_key_In. apply distinct_keys_In. }
  rewrite Hex.
  assert (Hmap :
    map (fun k' => (k', if key_eqb (row_key r) k'
                        then map row_target (rows_with_key k' rows) ++ [row_target r]
                        else map row_target (rows_with_key k' rows)))
        (distinct_keys (map row_key rows)) =
    map (fun k => (k, map row_target (rows_with_key k (rows ++ [r]))))
        (distinct_keys (map row_key rows))).
  { apply map_ext. intros k'. rewrite rows_with_key_snoc, map_app.
    destruct (key_eqb (row_key r) k'); simpl; [reflexivity|].
    now rewrite app_nil_r. }
  rewrite Hmap.
  destruct (existsb (key_eqb (row_key r)) (map row_key rows)) eqn:E.
  - now rewrite app_nil_r.
  - rewrite map_app. simpl. do 3 f_equal.
    rewrite rows_with_key_snoc, key_eqb_refl, map_app.
    rewrite rows_with_key_absent; [reflexivity|].
    rewrite <- existsb_key_In. congruence.
Qed.

(** The transform computes the grouping as the specification words it. *)
Lemma create_json_from_params_refines (p : params) (kw : kwargs) :
  create_json_from_params p kw = grouping_spec (targets p).
Proof.
  unfold create_json_from_params, grouping_spec, build_result.
  rewrite group_rows_closed_form, map_map. reflexivity.
Qed.

Lemma grouping_spec_keys (rows : list row) :
  map config_key (grouping_spec rows) = distinct_keys (map row_key rows).
Proof.
  unfold grouping_spec. rewrite map_map. unfold config_key. simpl.
  rewrite <- (map_id (distinct_keys (map row_key rows))) at 2.
  apply map_ext. intros [a b]. reflexivity.
Qed.

(** C1. For every table, the result of [create_json_from_params] is the
    grouping of the rows by (parameter name, parameter group): its keys are
    pairwise distinct, they are exactly the keys occurring in the rows, they
    come in the order of their first occurrence, and the [Targets] of each
    entry are the projections of the rows with the entry's key, in input
    order. *)
Theorem create_json_from_params_groups_by_key (p : params) (kw : kwargs) :
  create_json_from_params p kw = grouping_spec (targets p)
  /\ NoDup (map config_key (create_json_from_params p kw))
  /\ (forall k, In k (map config_key (create_json_from_params p kw))
                <-> In k (map row_key (targets p)))
  /\ map config_key (create_json_from_params p kw)
     = distinct_keys (map row_key (targets p))
  /\ (forall c, In c (create_json_from_params p kw) ->
        Targets c = map row_target (rows_with_key (config_key c) (targets p))).
Proof.
  pose proof (create_json_from_params_refines p kw) as Href.
  pose proof (grouping_spec_keys (targets p)) as Hkeys.
  rewrite Href. repeat split.
  - rewrite Hkeys. apply distinct_keys_NoDup.
  - rewrite Hkeys. apply distinct_keys_In.
  - rewrite Hkeys. apply distinct_keys_In.
  - assumption.
  - intros c Hin. unfold grouping_spec in Hin. apply in_map_iff in Hin.
    destruct Hin as [[a b] [<- _]]. reflexivity.
Qed.

Lemma create_json_from_params_groups_by_key_witness :
  In (mk_param_config (Some "Carbon_Dataset_Code") (Some "PG_DATA")
        [ mk_target (Some "400x400mm") (Some "CO_01_001_Geheide_prefab_betonpaal")
                    (Some "95");
          mk_target (Some "500x500mm") (Some "CO_01_001_Geheide_prefab_betonpaal")
                    None ])%string
     (create_json_from_params sample_params [])
  /\ Targets (mk_param_config (Some "Carbon_Dataset_Code") (Some "PG_DATA")
        [ mk_target (Some "400x400mm") (Some "CO_01_001_Geheide_prefab_betonpaal")
                    (Some "95");
          mk_target (Some "500x500mm") (Some "CO_01_001_Geheide_prefab_betonpaal")
                    None ])%string
     = map row_target
           (rows_with_key (Some "Carbon_Dataset_Code", Some "PG_DATA")%string
                          (targets sample_params)).
Proof.
  assert (Hin : In (mk_param_config (Some "Carbon_Dataset_Code") (Some "PG_DATA")
        [ mk_target (Some "400x400mm") (Some "CO_01_001_Geheide_prefab_betonpaal")
                    (Some "95");
          mk_target (Some "500x500mm") (Some "CO_01_001_Geheide_prefab_betonpaal")
                    None ])%string
     (create_json_from_params sample_params [])).
  { vm_compute. left. reflexivity. }
  split; [exact Hin|].
  exact (proj2 (proj2 (proj2 (proj2
           (create_json_from_params_groups_by_key sample_params []))))
           _ Hin).
Defined.

(** *** The grouping loses and invents no row *)

Lemma total_targets_grouped_append (k : key) (t : target) (d : grouped_dict) :
  total_targets (build_result (grouped_append k t d))
  = S (total_targets (build_result d)).
Proof.
  induction d as [|[k' ts] d IH]; simpl; [reflexivity|].
  destruct (key_eqb k k'); simpl.
  - rewrite length_app. simpl. lia.
  - rewrite IH. lia.
Qed.

Lemma grouped_append_nonempty (k : key) (t : target) (d : grouped_dict) :
  Forall (fun item => snd item <> []) d ->
  Forall (fun item => snd item <> []) (grouped_append k t d).
Proof.
  induction 1 as [|[k' ts] d Hhd Htl IH]; simpl.
  - constructor; [discriminate | constructor].
  - destruct (key_eqb k k'); constructor; simpl; auto.
    destruct ts; discriminate.
Qed.

Lemma group_rows_total (rows : list row) :
  total_targets (build_result (group_rows rows)) = List.length rows.
Proof.
  induction rows as [|r rows IH] using rev_ind; [reflexivity|].
  rewrite group_rows_snoc, total_targets_grouped_append, IH, length_app.
  simpl. lia.
Qed.

Lemma group_rows_nonempty (rows : list row) :
  Forall (fun item => snd item <> []) (group_rows rows).
Proof.
  induction rows as [|r rows IH] using rev_ind; [constructor|].
  rewrite group_rows_snoc. now apply grouped_append_nonempty.
Qed.

Lemma build_result_targets (d : grouped_dict) :
  List.concat (map Targets (build_result d)) = List.concat (map snd d).
Proof. unfold build_result. now rewrite map_map. Qed.

Lemma grouped_append_concat (k : key) (t : target) (d : grouped_dict) :
  Permutation (List.concat (map snd (grouped_append k t d)))
              (List.concat (map snd d) ++ [t]).
Proof.
  induction d as [|[k' ts] d IH]; simpl; [apply Permutation_refl|].
  destruct (key_eqb k k'); simpl.
  - rewrite <- !app_assoc. apply Permutation_app_head, Permutation_app_comm.
  - rewrite <- app_assoc. now apply Permutation_app_head.
Qed.

Lemma group_rows_concat (rows : list row) :
  Permutation (List.concat (map snd (group_rows rows))) (map row_target rows).
Proof.
  induction rows as [|r rows IH] using rev_ind; [apply Permutation_refl|].
  rewrite group_rows_snoc, map_app. simpl.
  eapply Permutation_trans; [apply grouped_append_concat|].
  now apply Permutation_app_tail.
Qed.

(** C7. The grouping is a partition of the rows.  The lengths of the
    [Targets] lists of the result add up to the number of rows, no entry
    has an empty [Targets] list and an empty table gives the empty list.
    The blocks are made of the rows themselves: the targets of all entries
    together are the projections of the rows, each as often as it occurs;
    the entries have pairwise distinct keys; the targets of an entry are the
    projections of exactly the rows with its key; and every row has its
    projection in the entry with its key. *)
Theorem create_json_from_params_partitions_rows (p : params) (kw : kwargs) :
  total_targets (create_json_from_params p kw) = List.length (targets p)
  /\ Forall (fun c => Targets c <> []) (create_json_from_params p kw)
  /\ (targets p = [] -> create_json_from_params p kw = [])
  /\ Permutation (List.concat (map Targets (create_json_from_params p kw)))
                 (map row_target (targets p))
  /\ NoDup (map config_key (create_json_from_params p kw))
  /\ (forall c, In c (create_json_from_params p kw) ->
        Targets c = map row_target (rows_with_key (config_key c) (targets p)))
  /\ (forall r, In r (targets p) ->
        exists c, In c (create_json_from_params p kw)
                  /\ config_key c = row_key r
                  /\ In (row_target r) (Targets c)).
Proof.
  split; [|split; [|split; [|split; [|split; [|split]]]]].
  - unfold create_json_from_params. apply group_rows_total.
  - unfold create_json_from_params, build_result. apply Forall_map.
    apply (Forall_impl _ (P := fun item => snd item <> [])); [auto|].
    apply group_rows_nonempty.
  - unfold create_json_from_params. intros ->. reflexivity.
  - unfold create_json_from_params. rewrite build_result_targets.
    apply group_rows_concat.
  - rewrite create_json_from_params_refines, grouping_spec_keys.
    apply distinct_keys_NoDup.
  - rewrite create_json_from_params_refines. intros c Hin.
    unfold grouping_spec in Hin. apply in_map_iff in Hin.
    destruct Hin as [[a b] [<- _]]. reflexivity.
  - rewrite create_json_from_params_refines. intros r Hin.
    exists {| ParameterName := fst (row_key r);
              ParameterGroup := snd (row_key r);
              Targets := map row_target (rows_with_key (row_key r) (targets p)) |}.
    split; [|split].
    + unfold grouping_spec. apply in_map_iff. exists (row_key r).
      split; [reflexivity|]. apply distinct_keys_In. now apply in_map.
    + reflexivity.
    + simpl. apply in_map. unfold rows_with_key. apply filter_In.
      split; [assumption | apply key_eqb_refl].
Qed.

Lemma create_json_from_params_partitions_rows_witness :
  targets (mk_params (Some sample_file) [] None []) = []
  /\ create_json_from_params (mk_params (Some sample_file) [] None []) [] = []
  /\ total_targets (create_json_from_params sample_params []) = 3%nat
  /\ In default_row (targets sample_params)
  /\ exists c, In c (create_json_from_params sample_params [])
               /\ config_key c = row_key default_row
               /\ In (row_target default_row) (Targets c).
Proof.
  assert (Hin : In default_row (targets sample_params)) by (left; reflexivity).
  split; [reflexivity|]. split; [|split; [|split]].
  - apply (create_json_from_params_partitions_rows
             (mk_params (Some sample_file) [] None []) []).
    reflexivity.
  - apply (create_json_from_params_partitions_rows sample_params []).
  - exact Hin.
  - exact (proj2 (proj2 (proj2 (proj2 (proj2 (proj2
             (create_json_from_params_partitions_rows sample_params []))))))
             default_row Hin).
Defined.

(* ===================================================================== *)
(** ** Properties of the poll loop *)
(* ===================================================================== *)

Lemma get_workitem_status_run (o : oracle) (wi_id token : string) (w : world) :
  get_workitem_status o wi_id token w
  = (after_poll wi_id token w, status_reply o (polls w) wi_id token).
Proof.
  unfold get_workitem_status, status_reply, after_poll, bind, lift. simpl.
  destruct (workitem_response o (polls w) _ token) as [r|e]; [|reflexivity].
  destruct (raise_for_status r); reflexivity.
Qed.

(** The loop, one iteration unfolded. *)
Lemma poll_loop_iteration (o : oracle) (wi_id token : string) (elapsed : Z)
    (final_status report_url : pystr) :
  poll_loop o wi_id token elapsed final_status report_url =
  if Z_le_dec elapsed max_wait then
    s <- get_workitem_status o wi_id token ;;
    if is_terminal (status s) then ret (status s, reportUrl s)
    else time_sleep poll_interval ;;
         poll_loop o wi_id token (elapsed + poll_interval) (status s) (reportUrl s)
  else ret (final_status, report_url).
Proof.
  simp poll_loop. destruct (Z_le_dec elapsed max_wait); reflexivity.
Qed.

Lemma poll_loop_expired (o : oracle) (wi_id token : string) (elapsed : Z)
    (final_status report_url : pystr) (w : world) :
  max_wait < elapsed ->
  poll_loop o wi_id token elapsed final_status report_url w
  = (w, Ok (final_status, report_url)).
Proof.
  intros Hgt. rewrite poll_loop_iteration.
  destruct (Z_le_dec elapsed max_wait); [lia | reflexivity].
Qed.

Lemma poll_loop_request_fails (o : oracle) (wi_id token : string) (elapsed : Z)
    (final_status report_url : pystr) (w : world) (e : exn) :
  elapsed <= max_wait ->
  status_reply o (polls w) wi_id token = Raise e ->
  poll_loop o wi_id token elapsed final_status report_url w
  = (after_poll wi_id token w, Raise e).
Proof.
  intros Hle Hreply. rewrite poll_loop_iteration.
  destruct (Z_le_dec elapsed max_wait); [|lia].
  unfold bind. now rewrite get_workitem_status_run, Hreply.
Qed.

Lemma poll_loop_breaks (o : oracle) (wi_id token : string) (elapsed : Z)
    (final_status report_url : pystr) (w : world) (s : workitem_doc) :
  elapsed <= max_wait ->
  status_reply o (polls w) wi_id token = Ok s ->
  is_terminal (status s) = true ->
  poll_loop o wi_id token elapsed final_status report_url w
  = (after_poll wi_id token w, Ok (status s, reportUrl s)).
Proof.
  intros Hle Hreply Hterm. rewrite poll_loop_iteration.
  destruct (Z_le_dec elapsed max_wait); [|lia].
  unfold bind. now rewrite get_workitem_status_run, Hreply, Hterm.
Qed.

Lemma poll_loop_continues (o : oracle) (wi_id token : string) (elapsed : Z)
    (final_status report_url : pystr) (w : world) (s : workitem_doc) :
  elapsed <= max_wait ->
  status_reply o (polls w) wi_id token = Ok s ->
  is_terminal (status s) = false ->
  poll_loop o wi_id token elapsed final_status report_url w
  = poll_loop o wi_id token (elapsed + poll_interval) (status s) (reportUrl s)
              (log (EvSleep poll_interval) (after_poll wi_id token w)).
Proof.
  intros Hle Hreply Hterm. rewrite poll_loop_iteration.
  destruct (Z_le_dec elapsed max_wait); [|lia].
  unfold bind. rewrite get_workitem_status_run, Hreply, Hterm. reflexivity.
Qed.

Lemma iterations_left_expired (elapsed : Z) :
  max_wait < elapsed -> iterations_left elapsed = 0%nat.
Proof.
  unfold iterations_left, max_wait, poll_interval. intros Hgt.
  assert ((600 - elapsed) / 10 < 0) by (apply Z.div_lt_upper_bound; lia).
  lia.
Qed.

Lemma iterations_left_step (elapsed : Z) :
  elapsed <= max_wait ->
  iterations_left elapsed = S (iterations_left (elapsed + poll_interval)).
Proof.
  unfold iterations_left, max_wait, poll_interval. intros Hle.
  replace (600 - (elapsed + 10)) with ((600 - elapsed) + (-1) * 10) by lia.
  rewrite Z.div_add by lia.
  assert (0 <= (600 - elapsed) / 10) by (apply Z.div_pos; lia).
  lia.
Qed.

Lemma iterations_left_start : iterations_left 0 = 61%nat.
Proof. reflexivity. Qed.

Lemma max_polls_value : max_polls = 61%nat.
Proof. reflexivity. Qed.

Lemma slept_log_sleep (seconds : Z) (w : world) :
  slept (log (EvSleep seconds) w) = slept w + seconds.
Proof.
  unfold slept, log. simpl. generalize (calls w) as l.
  induction l as [|ev l IH]; simpl; [lia|].
  destruct ev; rewrite IH; lia.
Qed.

Lemma slept_after_poll (wi_id token : string) (w : world) :
  slept (after_poll wi_id token w) = slept w.
Proof.
  unfold slept, after_poll. simpl. generalize (calls w) as l.
  induction l as [|ev l IH]; simpl; [lia|].
  destruct ev; rewrite IH; lia.
Qed.

(** Requests and sleeping time of the loop entered at [elapsed]. *)
Lemma poll_loop_bounds (o : oracle) (wi_id token : string) (n : nat) :
  forall (elapsed : Z) (final_status report_url : pystr) (w : world),
    iterations_left elapsed = n ->
    (polls w <= polls (fst (poll_loop o wi_id token elapsed final_status report_url w))
     <= polls w + n)%nat
    /\ slept w
       <= slept (fst (poll_loop o wi_id token elapsed final_status report_url w))
       <= slept w + poll_interval * Z.of_nat n.
Proof.
  induction n as [|n IH]; intros elapsed fs ru w Hn.
  - assert (Hgt : max_wait < elapsed).
    { destruct (Z_le_dec elapsed max_wait) as [Hle|]; [|lia].
      rewrite (iterations_left_step _ Hle) in Hn. discriminate. }
    rewrite poll_loop_expired by assumption. simpl. lia.
  - assert (Hle : elapsed <= max_wait).
    { destruct (Z_le_dec elapsed max_wait) as [|Hgt]; [assumption|].
      rewrite iterations_left_expired in Hn by lia. discriminate. }
    rewrite (iterations_left_step _ Hle) in Hn. injection Hn as Hn.
    destruct (status_reply o (polls w) wi_id token) as [s|e] eqn:Hreply.
    + destruct (is_terminal (status s)) eqn:Hterm.
      * rewrite (poll_loop_breaks _ _ _ _ _ _ _ _ Hle Hreply Hterm). simpl.
        rewrite slept_after_poll. unfold poll_interval. lia.
      * rewrite (poll_loop_continues _ _ _ _ _ _ _ _ Hle Hreply Hterm).
        specialize (IH (elapsed + poll_interval) (status s) (reportUrl s)
                       (log (EvSleep poll_interval) (after_poll wi_id token w)) Hn).
        rewrite slept_log_sleep, slept_after_poll in IH.
        destruct IH as [IHpolls IHslept]. simpl in IHpolls.
        unfold poll_interval in *. lia.
    + rewrite (poll_loop_request_fails _ _ _ _ _ _ _ _ Hle Hreply). simpl.
      rewrite slept_after_poll. unfold poll_interval. lia.
Qed.

Lemma poll_loop_polls_once (o : oracle) (wi_id token : string) (elapsed : Z)
    (final_status report_url : pystr) (w : world) :
  elapsed <= max_wait ->
  (S (polls w)
   <= polls (fst (poll_loop o wi_id token elapsed final_status report_url w)))%nat.
Proof.
  intros Hle.
  destruct (status_reply o (polls w) wi_id token) as [s|e] eqn:Hreply.
  - destruct (is_terminal (status s)) eqn:Hterm.
    + rewrite (poll_loop_breaks _ _ _ _ _ _ _ _ Hle Hreply Hterm). simpl. lia.
    + rewrite (poll_loop_continues _ _ _ _ _ _ _ _ Hle Hreply Hterm).
      pose proof (poll_loop_bounds o wi_id token _ (elapsed + poll_interval)
                    (status s) (reportUrl s)
                    (log (EvSleep poll_interval) (after_poll wi_id token w))
                    eq_refl) as [[Hlow _] _].
      simpl in Hlow. exact Hlow.
  - rewrite (poll_loop_request_fails _ _ _ _ _ _ _ _ Hle Hreply). simpl. lia.
Qed.

(** Once a terminal status has been answered, no further request is made. *)
Lemma poll_loop_stops_at_terminal (o : oracle) (wi_id token : string) (k : nat) :
  forall (elapsed : Z) (final_status report_url : pystr) (w : world)
         (s : workitem_doc),
    status_reply o (polls w + k) wi_id token = Ok s ->
    is_terminal (status s) = true ->
    (polls (fst (poll_loop o wi_id token elapsed final_status report_url w))
     <= polls w + k + 1)%nat.
Proof.
  induction k as [|k IH]; intros elapsed fs ru w s Hreply Hterm.
  - rewrite Nat.add_0_r in Hreply.
    destruct (Z_le_dec elapsed max_wait) as [Hle|Hgt].
    + rewrite (poll_loop_breaks _ _ _ _ _ _ _ _ Hle Hreply Hterm). simpl. lia.
    + rewrite poll_loop_expired by lia. simpl. lia.
  - destruct (Z_le_dec elapsed max_wait) as [Hle|Hgt].
    + destruct (status_reply o (polls w) wi_id token) as [s0|e] eqn:Hreply0.
      * destruct (is_terminal (status s0)) eqn:Hterm0.
        -- rewrite (poll_loop_breaks _ _ _ _ _ _ _ _ Hle Hreply0 Hterm0).
           simpl. lia.
        -- rewrite (poll_loop_continues _ _ _ _ _ _ _ _ Hle Hreply0 Hterm0).
           specialize (IH (elapsed + poll_interval) (status s0) (reportUrl s0)
                          (log (EvSleep poll_interval) (after_poll wi_id token w)) s).
           simpl in IH. rewrite <- Nat.add_succ_comm in Hreply.
           specialize (IH Hreply Hterm). lia.
      * rewrite (poll_loop_request_fails _ _ _ _ _ _ _ _ Hle Hreply0).
        simpl. lia.
    + rewrite poll_loop_expired by lia. simpl. lia.
Qed.

Lemma polls_after_rounds (n : nat) (wi_id token : string) :
  forall w, polls (after_rounds n wi_id token w) = (polls w + n)%nat.
Proof.
  induction n as [|n IH]; intros w; simpl; [lia|].
  rewrite IH. simpl. lia.
Qed.

(** [k + 1] rounds in which every status answered is non-terminal. *)
Lemma poll_loop_rounds (o : oracle) (wi_id token : string) (k : nat) :
  forall (elapsed : Z) (final_status report_url : pystr) (w : world),
    (forall i, (i <= k)%nat ->
       exists s, status_reply o (polls w + i) wi_id token = Ok s
                 /\ is_terminal (status s) = false) ->
    elapsed + poll_interval * Z.of_nat k <= max_wait ->
    exists s,
      status_reply o (polls w + k) wi_id token = Ok s
      /\ is_terminal (status s) = false
      /\ poll_loop o wi_id token elapsed final_status report_url w
         = poll_loop o wi_id token (elapsed + poll_interval * Z.of_nat (S k))
                     (status s) (reportUrl s) (after_rounds (S k) wi_id token w).
Proof.
  induction k as [|k IH]; intros elapsed fs ru w Hall Hle.
  - destruct (Hall 0%nat (Nat.le_refl _)) as [s [Hreply Hterm]].
    exists s. repeat split; try assumption.
    rewrite Nat.add_0_r in Hreply.
    rewrite (poll_loop_continues o wi_id token elapsed fs ru w s);
      try assumption; [|unfold poll_interval in *; lia].
    simpl after_rounds. do 2 f_equal.
  - destruct (Hall 0%nat (Nat.le_0_l _)) as [s0 [Hreply0 Hterm0]].
    rewrite Nat.add_0_r in Hreply0.
    assert (Hle0 : elapsed <= max_wait) by (unfold poll_interval in *; lia).
    rewrite (poll_loop_continues o wi_id token elapsed fs ru w s0 Hle0 Hreply0 Hterm0).
    destruct (IH (elapsed + poll_interval) (status s0) (reportUrl s0)
                 (log (EvSleep poll_interval) (after_poll wi_id token w)))
      as [s [Hreply [Hterm Heq]]].
    + intros i Hi. simpl.
      replace (S (polls w + i)) with (polls w + S i)%nat by lia.
      apply Hall. lia.
    + unfold poll_interval in *. lia.
    + exists s. simpl in Hreply.
      replace (S (polls w + k)) with (polls w + S k)%nat in Hreply by lia.
      repeat split; try assumption.
      rewrite Heq. simpl after_rounds. f_equal.
      unfold poll_interval. lia.
Qed.

(** C2. The poll loop of both workflows terminates for every sequence of
    answers of the status endpoint.  It makes at least one and at most
    [max_polls] = 61 status requests and sleeps at most
    [max_wait + poll_interval] seconds; it makes no request after a terminal
    status has been answered; and when the first 61 answers are all
    non-terminal it leaves after exactly 61 rounds of request and sleep. *)
Theorem poll_loop_terminates_within_max_polls
    (o : oracle) (wi_id token : string) (w : world) :
  max_polls = 61%nat
  /\ (S (polls w)
      <= polls (fst (poll_loop o wi_id token 0 None None w))
      <= polls w + max_polls)%nat
  /\ slept (fst (poll_loop o wi_id token 0 None None w))
     <= slept w + (max_wait + poll_interval)
  /\ (forall k s,
        status_reply o (polls w + k) wi_id token = Ok s ->
        is_terminal (status s) = true ->
        (polls (fst (poll_loop o wi_id token 0 None None w)) <= polls w + k + 1)%nat)
  /\ ((forall k, (k < max_polls)%nat ->
         exists s, status_reply o (polls w + k) wi_id token = Ok s
                   /\ is_terminal (status s) = false) ->
      fst (poll_loop o wi_id token 0 None None w)
      = after_rounds max_polls wi_id token w
      /\ polls (fst (poll_loop o wi_id token 0 None None w))
         = (polls w + max_polls)%nat).
Proof.
  rewrite max_polls_value.
  pose proof (poll_loop_bounds o wi_id token 61 0 None None w
                iterations_left_start) as [[_ Hup] [_ Hslept]].
  repeat split.
  - apply poll_loop_polls_once. unfold max_wait. lia.
  - exact Hup.
  - unfold max_wait, poll_interval in *. lia.
  - intros k s. apply poll_loop_stops_at_terminal.
  - destruct (poll_loop_rounds o wi_id token 60 0 None None w) as [s [_ [_ Heq]]].
    + intros i Hi. apply H. lia.
    + unfold max_wait, poll_interval. lia.
    + rewrite Heq, poll_loop_expired by (unfold max_wait, poll_interval; lia).
      reflexivity.
  - destruct (poll_loop_rounds o wi_id token 60 0 None None w) as [s [_ [_ Heq]]].
    + intros i Hi. apply H. lia.
    + unfold max_wait, poll_interval. lia.
    + rewrite Heq, poll_loop_expired by (unfold max_wait, poll_interval; lia).
      cbn [fst]. apply polls_after_rounds.
Qed.

Lemma poll_loop_terminates_within_max_polls_witness :
  status_reply (sample_oracle succeeds_at_fourth) (polls initial_world + 3)
               "workitem-1" "token"
  = Ok {| status := Some "success"%string;
          reportUrl := Some "https://dasprod-store/report.txt"%string |}
  /\ (polls (fst (poll_loop (sample_oracle succeeds_at_fourth)
                            "workitem-1" "token" 0 None None initial_world))
      <= polls initial_world + 3 + 1)%nat
  /\ polls (fst (poll_loop (sample_oracle never_finishes)
                           "workitem-1" "token" 0 None None initial_world))
     = (polls initial_world + max_polls)%nat.
Proof.
  split; [reflexivity|]. split.
  - apply (proj1 (proj2 (proj2 (proj2
             (poll_loop_terminates_within_max_polls
                (sample_oracle succeeds_at_fourth) "workitem-1" "token"
                initial_world))))
             3%nat
             {| status := Some "success"%string;
                reportUrl := Some "https://dasprod-store/report.txt"%string |});
      reflexivity.
  - apply (proj2 (proj2 (proj2 (proj2
             (poll_loop_terminates_within_max_polls
                (sample_oracle never_finishes) "workitem-1" "token"
                initial_world))))).
    intros k _. exists {| status := Some "pending"%string; reportUrl := None |}.
    split; reflexivity.
Defined.

Lemma is_terminal_iff (st : pystr) :
  is_terminal st = true
  <-> st = Some "success"%string \/ st = Some "failed"%string
      \/ st = Some "cancelled"%string.
Proof.
  unfold is_terminal. simpl. rewrite !orb_true_iff, !pystr_eqb_eq.
  intuition discriminate.
Qed.

(** A loop that ends on a non-terminal status has used up all its rounds. *)
Lemma poll_loop_nonterminal_exit (o : oracle) (wi_id token : string) (n : nat) :
  forall (elapsed : Z) (final_status report_url : pystr) (w w' : world)
         (fs' ru' : pystr),
    iterations_left elapsed = n ->
    poll_loop o wi_id token elapsed final_status report_url w
    = (w', Ok (fs', ru')) ->
    is_terminal fs' = false ->
    polls w' = (polls w + n)%nat
    /\ slept w' = slept w + poll_interval * Z.of_nat n.
Proof.
  induction n as [|n IH]; intros elapsed fs ru w w' fs' ru' Hn Hrun Hterm'.
  - assert (Hgt : max_wait < elapsed).
    { destruct (Z_le_dec elapsed max_wait) as [Hle|]; [|lia].
      rewrite (iterations_left_step _ Hle) in Hn. discriminate. }
    rewrite poll_loop_expired in Hrun by assumption.
    injection Hrun as <- _ _. unfold poll_interval. split; lia.
  - assert (Hle : elapsed <= max_wait).
    { destruct (Z_le_dec elapsed max_wait) as [|Hgt]; [assumption|].
      rewrite iterations_left_expired in Hn by lia. discriminate. }
    rewrite (iterations_left_step _ Hle) in Hn. injection Hn as Hn.
    destruct (status_reply o (polls w) wi_id token) as [s|e] eqn:Hreply.
    + destruct (is_terminal (status s)) eqn:Hterm.
      * rewrite (poll_loop_breaks _ _ _ _ _ _ _ _ Hle Hreply Hterm) in Hrun.
        injection Hrun as _ <- _. congruence.
      * rewrite (poll_loop_continues _ _ _ _ _ _ _ _ Hle Hreply Hterm) in Hrun.
        destruct (IH _ _ _ _ _ _ _ Hn Hrun Hterm') as [Hp Hs].
        rewrite slept_log_sleep, slept_after_poll in Hs. simpl in Hp.
        unfold poll_interval in *. split; lia.
    + rewrite (poll_loop_request_fails _ _ _ _ _ _ _ _ Hle Hreply) in Hrun.
      discriminate.
Qed.

(** C3. The loop leaves early exactly on a terminal status.  In a round
    entered within the timeout whose request is answered with status [st]:
    if [st] is "success", "failed" or "cancelled" the loop ends there,
    without sleeping; for any other [st] it sleeps [poll_interval] seconds
    and goes round again, which, while [elapsed] is still within [max_wait],
    makes a further request.  A loop that ends on a non-terminal status has
    made all 61 requests and slept the whole timeout. *)
Theorem poll_loop_leaves_early_only_on_terminal
    (o : oracle) (wi_id token : string) :
  (forall st, is_terminal st = true
              <-> st = Some "success"%string \/ st = Some "failed"%string
                  \/ st = Some "cancelled"%string)
  /\ (forall elapsed final_status report_url w s,
        elapsed <= max_wait ->
        status_reply o (polls w) wi_id token = Ok s ->
        if is_terminal (status s)
        then poll_loop o wi_id token elapsed final_status report_url w
             = (after_poll wi_id token w, Ok (status s, reportUrl s))
        else poll_loop o wi_id token elapsed final_status report_url w
             = poll_loop o wi_id token (elapsed + poll_interval)
                         (status s) (reportUrl s)
                         (log (EvSleep poll_interval) (after_poll wi_id token w))
             /\ (elapsed + poll_interval <= max_wait ->
                 (S (S (polls w))
                  <= polls (fst (poll_loop o wi_id token elapsed
                                           final_status report_url w)))%nat))
  /\ (forall w w' fs' ru',
        poll_loop o wi_id token 0 None None w = (w', Ok (fs', ru')) ->
        is_terminal fs' = false ->
        polls w' = (polls w + max_polls)%nat
        /\ slept w' = slept w + (max_wait + poll_interval)).
Proof.
  split; [apply is_terminal_iff|]. split.
  - intros elapsed fs ru w s Hle Hreply.
    destruct (is_terminal (status s)) eqn:Hterm.
    + now apply poll_loop_breaks.
    + split; [now apply poll_loop_continues|].
      intros Hle'. rewrite (poll_loop_continues _ _ _ _ _ _ _ _ Hle Hreply Hterm).
      apply (poll_loop_polls_once o wi_id token (elapsed + poll_interval)
               (status s) (reportUrl s)
               (log (EvSleep poll_interval) (after_poll wi_id token w)) Hle').
  - intros w w' fs' ru' Hrun Hterm.
    destruct (poll_loop_nonterminal_exit o wi_id token 61 0 None None w w' fs' ru'
                iterations_left_start Hrun Hterm) as [Hp Hs].
    rewrite max_polls_value. unfold max_wait, poll_interval in *. split; lia.
Qed.

Lemma poll_loop_leaves_early_only_on_terminal_witness :
  0 <= max_wait
  /\ status_reply (sample_oracle succeeds_at_fourth) (polls initial_world)
                  "workitem-1" "token"
     = Ok {| status := Some "inprogress"%string; reportUrl := None |}
  /\ poll_loop (sample_oracle succeeds_at_fourth) "workitem-1" "token"
               0 None None initial_world
     = poll_loop (sample_oracle succeeds_at_fourth) "workitem-1" "token"
                 (0 + poll_interval) (Some "inprogress"%string) None
                 (log (EvSleep poll_interval)
                      (after_poll "workitem-1" "token" initial_world)).
Proof.
  split; [unfold max_wait; lia|]. split; [reflexivity|].
  apply (proj1 (proj1 (proj2 (poll_loop_leaves_early_only_on_terminal
                         (sample_oracle succeeds_at_fourth) "workitem-1" "token"))
                 0 None None initial_world
                 {| status := Some "inprogress"%string; reportUrl := None |}
                 ltac:(unfold max_wait; lia) eq_refl)).
Defined.

(* ===================================================================== *)
(** ** Properties of the status check and of the exception handlers *)
(* ===================================================================== *)

Lemma string_app_assoc (a b c : string) :
  ((a ++ b) ++ c = a ++ (b ++ c))%string.
Proof. induction a as [|ch a IH]; simpl; [reflexivity | now rewrite IH]. Qed.

Lemma string_app_nil_r (a : string) : (a ++ "" = a)%string.
Proof. induction a as [|ch a IH]; simpl; [reflexivity | now rewrite IH]. Qed.

Lemma contains_middle (pre u post : string) :
  contains u (pre ++ u ++ post)%string.
Proof. now exists pre, post. Qed.

Lemma contains_suffix (pre u : string) : contains u (pre ++ u)%string.
Proof. exists pre, ""%string. now rewrite string_app_nil_r. Qed.

Lemma contains_app_l (u m x : string) :
  contains u m -> contains u (m ++ x)%string.
Proof.
  intros [pre [post ->]]. exists pre, (post ++ x)%string.
  now rewrite !string_app_assoc.
Qed.

Lemma contains_app_r (u m x : string) :
  contains u m -> contains u (x ++ m)%string.
Proof.
  intros [pre [post ->]]. exists (x ++ pre)%string, post.
  now rewrite !string_app_assoc.
Qed.

Lemma pystr_eqb_neq (a b : pystr) : pystr_eqb a b = false <-> a <> b.
Proof.
  rewrite <- pystr_eqb_eq. destruct (pystr_eqb a b); split; congruence.
Qed.

Lemma check_final_status_success (what : string) (report_url : pystr) (w : world) :
  check_final_status what (Some "success"%string) report_url w = (w, Ok tt).
Proof. reflexivity. Qed.

(** The message of the check, spelled out. *)
Lemma check_final_status_failure (what : string) (final_status report_url : pystr)
    (w : world) :
  final_status <> Some "success"%string ->
  check_final_status what final_status report_url w
  = (w, Raise (UserError
       (if truthy report_url
        then ((what ++ " did not finish with success. Status: "
                    ++ py_str final_status)
                ++ nl ++ "Report URL: " ++ py_str report_url)%string
        else (what ++ " did not finish with success. Status: "
                   ++ py_str final_status)%string))).
Proof.
  intros Hne. apply pystr_eqb_neq in Hne. unfold check_final_status.
  rewrite Hne. reflexivity.
Qed.

Lemma check_final_status_message (what : string) (final_status report_url : pystr)
    (w : world) :
  final_status <> Some "success"%string ->
  exists msg,
    check_final_status what final_status report_url w = (w, Raise (UserError msg))
    /\ contains (py_str final_status) msg
    /\ (forall u, report_url = Some u -> contains u msg)
    /\ (truthy report_url = true ->
        exists pre, msg = (pre ++ nl ++ "Report URL: " ++ py_str report_url)%string).
Proof.
  intros Hne. eexists. split; [now apply check_final_status_failure|].
  destruct (truthy report_url) eqn:Htruthy; cbv iota.
  - split; [|split].
    + apply contains_app_l.
      rewrite <- string_app_assoc. apply contains_suffix.
    + intros u ->. cbn [py_str].
      rewrite <- (string_app_assoc nl), <- string_app_assoc.
      apply contains_suffix.
    + intros _. eexists. reflexivity.
  - split; [|split].
    + rewrite <- string_app_assoc. apply contains_suffix.
    + intros u ->. simpl in Htruthy. apply negb_false_iff, String.eqb_eq in Htruthy.
      subst u. exists ""%string. eexists. reflexivity.
    + discriminate.
Qed.

(** A workflow whose first token request fails raises that exception as it is. *)
Lemma process_with_workitem_token_fails (o : oracle) (p : params) (kw : kwargs)
    (w : world) (e : exn) :
  access_token o (tokens w) = Raise e ->
  process_with_workitem o p kw w = (after_token w, Raise e).
Proof.
  intros Htok. unfold process_with_workitem, bind, get_access_token.
  now rewrite Htok.
Qed.

Lemma export_to_ifc_token_fails (o : oracle) (p : params) (kw : kwargs)
    (w : world) (e : exn) :
  access_token o (tokens w) = Raise e ->
  export_to_ifc o p kw w = (after_token w, Raise e).
Proof.
  intros Htok. unfold export_to_ifc, bind, get_access_token.
  now rewrite Htok.
Qed.

(** With a token, a workflow ends as the body of its [try] does, or with
    the body's exception resurfaced. *)
Lemma process_with_workitem_run (o : oracle) (p : params) (kw : kwargs)
    (w : world) (tok : string) :
  access_token o (tokens w) = Ok tok ->
  process_with_workitem o p kw w =
  match process_with_workitem_body o p tok (after_token w) with
  | (w', Ok a) => (w', Ok a)
  | (w', Raise e) => (w', Raise (resurfaced o "Error in Automation workflow: " e))
  end.
Proof.
  intros Htok. unfold process_with_workitem, bind, get_access_token, try_except.
  rewrite Htok. fold (after_token w).
  destruct (process_with_workitem_body o p tok (after_token w)) as [w' [a|e]];
    reflexivity.
Qed.

Lemma export_to_ifc_run (o : oracle) (p : params) (kw : kwargs)
    (w : world) (tok : string) :
  access_token o (tokens w) = Ok tok ->
  export_to_ifc o p kw w =
  match export_to_ifc_body o p tok (after_token w) with
  | (w', Ok a) => (w', Ok a)
  | (w', Raise e) => (w', Raise (resurfaced o "Error in IFC Export workflow: " e))
  end.
Proof.
  intros Htok. unfold export_to_ifc, bind, get_access_token, try_except.
  rewrite Htok. fold (after_token w).
  destruct (export_to_ifc_body o p tok (after_token w)) as [w' [a|e]];
    reflexivity.
Qed.

(** The bodies, from the end of the poll loop on. *)
Lemma process_with_workitem_body_after_loop (o : oracle) (p : params)
    (tok : string) (w0 w1 w2 : world) (wi : string) (out : activity_parameter)
    (fs ru : pystr) :
  submit_type_parameters_job o p tok w0 = (w1, Ok (wi, out)) ->
  poll_loop o wi tok 0 None None w1 = (w2, Ok (fs, ru)) ->
  process_with_workitem_body o p tok w0 =
  match check_final_status "Automation" fs ru w2 with
  | (w3, Ok _) => create_acc_item o out tok w3
  | (w3, Raise e) => (w3, Raise e)
  end.
Proof.
  intros Hsubmit Hloop. unfold process_with_workitem_body, bind.
  now rewrite Hsubmit, Hloop.
Qed.

Lemma export_to_ifc_body_after_loop (o : oracle) (p : params)
    (tok : string) (w0 w1 w2 : world) (wi : string) (out : activity_parameter)
    (fs ru : pystr) :
  submit_ifc_export_job o p tok w0 = (w1, Ok (wi, out)) ->
  poll_loop o wi tok 0 None None w1 = (w2, Ok (fs, ru)) ->
  export_to_ifc_body o p tok w0 =
  match check_final_status "IFC export" fs ru w2 with
  | (w3, Ok _) => create_acc_item o out tok w3
  | (w3, Raise e) => (w3, Raise e)
  end.
Proof.
  intros Hsubmit Hloop. unfold export_to_ifc_body, bind.
  now rewrite Hsubmit, Hloop.
Qed.

Lemma resurfaced_contains (o : oracle) (heading u : string) (e : exn) :
  contains u (exn_str e) ->
  exists msg, resurfaced o heading e = UserError msg /\ contains u msg.
Proof.
  intros Hc. eexists. split; [reflexivity|].
  apply contains_app_r, contains_app_l. exact Hc.
Qed.

Lemma create_acc_item_run (o : oracle) (out : activity_parameter)
    (tok : string) (w : world) :
  create_acc_item o out tok w
  = (log (EvCreateAccItem out tok) w, acc_item_created o out tok).
Proof. reflexivity. Qed.

(** C4, as the code has it.  The check after the poll loop makes no call
    and raises a [UserError] if and only if [final_status != "success"]; its
    message contains the final status and contains the report URL whenever
    the last answer had one (appended on a line of its own when it is not
    empty).  In a run of either workflow that reaches the check with a
    status other than "success", the workflow ends with a [UserError] whose
    message still contains both.  With "success" the workflow goes on to
    create the ACC item, and ends as that call does, its exception
    resurfaced by the handler.  So a workflow that reached the check raises
    if and only if the final status is not "success" or the ACC item cannot
    be created. *)
Theorem status_check_raises_iff_not_success (o : oracle) :
  (forall what final_status report_url w,
     fst (check_final_status what final_status report_url w) = w
     /\ ((exists e, snd (check_final_status what final_status report_url w) = Raise e)
         <-> final_status <> Some "success"%string)
     /\ (final_status <> Some "success"%string ->
         exists msg,
           snd (check_final_status what final_status report_url w)
           = Raise (UserError msg)
           /\ contains (py_str final_status) msg
           /\ (forall u, report_url = Some u -> contains u msg)
           /\ (truthy report_url = true ->
               exists pre,
                 msg = (pre ++ nl ++ "Report URL: " ++ py_str report_url)%string)))
  /\ (forall p kw w tok w1 w2 wi out final_status report_url,
        access_token o (tokens w) = Ok tok ->
        submit_type_parameters_job o p tok (after_token w) = (w1, Ok (wi, out)) ->
        poll_loop o wi tok 0 None None w1 = (w2, Ok (final_status, report_url)) ->
        (final_status <> Some "success"%string ->
         exists msg,
           process_with_workitem o p kw w = (w2, Raise (UserError msg))
           /\ contains (py_str final_status) msg
           /\ (forall u, report_url = Some u -> contains u msg))
        /\ (final_status = Some "success"%string ->
            process_with_workitem o p kw w =
            match create_acc_item o out tok w2 with
            | (w3, Ok a) => (w3, Ok a)
            | (w3, Raise e) =>
                (w3, Raise (resurfaced o "Error in Automation workflow: " e))
            end)
        /\ ((exists e, snd (process_with_workitem o p kw w) = Raise e)
            <-> final_status <> Some "success"%string
                \/ exists e, acc_item_created o out tok = Raise e))
  /\ (forall p kw w tok w1 w2 wi out final_status report_url,
        access_token o (tokens w) = Ok tok ->
        submit_ifc_export_job o p tok (after_token w) = (w1, Ok (wi, out)) ->
        poll_loop o wi tok 0 None None w1 = (w2, Ok (final_status, report_url)) ->
        (final_status <> Some "success"%string ->
         exists msg,
           export_to_ifc o p kw w = (w2, Raise (UserError msg))
           /\ contains (py_str final_status) msg
           /\ (forall u, report_url = Some u -> contains u msg))
        /\ (final_status = Some "success"%string ->
            export_to_ifc o p kw w =
            match create_acc_item o out tok w2 with
            | (w3, Ok a) => (w3, Ok a)
            | (w3, Raise e) =>
                (w3, Raise (resurfaced o "Error in IFC Export workflow: " e))
            end)
        /\ ((exists e, snd (export_to_ifc o p kw w) = Raise e)
            <-> final_status <> Some "success"%string
                \/ exists e, acc_item_created o out tok = Raise e)).
Proof.
  split; [|split].
  - intros what fs ru w. split; [|split].
    + unfold check_final_status.
      destruct (negb (pystr_eqb fs (Some "success"%string))); reflexivity.
    + split.
      * intros [e He] ->. rewrite check_final_status_success in He. discriminate.
      * intros Hne.
        destruct (check_final_status_message what fs ru w Hne) as [msg [Hrun _]].
        exists (UserError msg). now rewrite Hrun.
    + intros Hne.
      destruct (check_final_status_message what fs ru w Hne)
        as [msg [Hrun [Hst [Hurl Hline]]]].
      exists msg. rewrite Hrun. auto.
  - intros p kw w tok w1 w2 wi out fs ru Htok Hsubmit Hloop.
    rewrite (process_with_workitem_run o p kw w tok Htok).
    rewrite (process_with_workitem_body_after_loop o p tok _ _ _ _ _ _ _
               Hsubmit Hloop).
    assert (Hnot : fs <> Some "success"%string ->
      exists msg,
        match
          match check_final_status "Automation" fs ru w2 with
          | (w3, Ok _) => create_acc_item o out tok w3
          | (w3, Raise e) => (w3, Raise e)
          end
        with
        | (w', Ok a) => (w', Ok a)
        | (w', Raise e) =>
            (w', Raise (resurfaced o "Error in Automation workflow: " e))
        end = (w2, Raise (UserError msg))
        /\ contains (py_str fs) msg
        /\ (forall u, ru = Some u -> contains u msg)).
    { intros Hne.
      destruct (check_final_status_message "Automation" fs ru w2 Hne)
        as [msg [Hrun [Hst [Hurl _]]]].
      rewrite Hrun.
      destruct (resurfaced_contains o "Error in Automation workflow: "
                  (py_str fs) (UserError msg) Hst) as [msg' [Heq Hst']].
      exists msg'. rewrite Heq. repeat split; [exact Hst'|].
      intros u Hu. specialize (Hurl u Hu).
      destruct (resurfaced_contains o "Error in Automation workflow: "
                  u (UserError msg) Hurl) as [msg'' [Heq' Hurl']].
      rewrite Heq in Heq'. injection Heq' as ->. exact Hurl'. }
    split; [exact Hnot|]. split.
    + intros ->. rewrite check_final_status_success. reflexivity.
    + destruct (pystr_eqb fs (Some "success"%string)) eqn:E.
      * apply pystr_eqb_eq in E. subst fs.
        rewrite check_final_status_success, create_acc_item_run.
        destruct (acc_item_created o out tok) as [[]|e]; simpl; split.
        -- intros [e He]. discriminate.
        -- intros [Hne|[e He]]; [congruence | discriminate].
        -- intros _. right. now exists e.
        -- intros _. eexists. reflexivity.
      * apply pystr_eqb_neq in E. split.
        -- intros _. now left.
        -- intros _. destruct (Hnot E) as [msg [Hrun _]]. rewrite Hrun.
           eexists. reflexivity.
  - intros p kw w tok w1 w2 wi out fs ru Htok Hsubmit Hloop.
    rewrite (export_to_ifc_run o p kw w tok Htok).
    rewrite (export_to_ifc_body_after_loop o p tok _ _ _ _ _ _ _ Hsubmit Hloop).
    assert (Hnot : fs <> Some "success"%string ->
      exists msg,
        match
          match check_final_status "IFC export" fs ru w2 with
          | (w3, Ok _) => create_acc_item o out tok w3
          | (w3, Raise e) => (w3, Raise e)
          end
        with
        | (w', Ok a) => (w', Ok a)
        | (w', Raise e) =>
            (w', Raise (resurfaced o "Error in IFC Export workflow: " e))
        end = (w2, Raise (UserError msg))
        /\ contains (py_str fs) msg
        /\ (forall u, ru = Some u -> contains u msg)).
    { intros Hne.
      destruct (check_final_status_message "IFC export" fs ru w2 Hne)
        as [msg [Hrun [Hst [Hurl _]]]].
      rewrite Hrun.
      destruct (resurfaced_contains o "Error in IFC Export workflow: "
                  (py_str fs) (UserError msg) Hst) as [msg' [Heq Hst']].
      exists msg'. rewrite Heq. repeat split; [exact Hst'|].
      intros u Hu. specialize (Hurl u Hu).
      destruct (resurfaced_contains o "Error in IFC Export workflow: "
                  u (UserError msg) Hurl) as [msg'' [Heq' Hurl']].
      rewrite Heq in Heq'. injection Heq' as ->. exact Hurl'. }
    split; [exact Hnot|]. split.
    + intros ->. rewrite check_final_status_success. reflexivity.
    + destruct (pystr_eqb fs (Some "success"%string)) eqn:E.
      * apply pystr_eqb_eq in E. subst fs.
        rewrite check_final_status_success, create_acc_item_run.
        destruct (acc_item_created o out tok) as [[]|e]; simpl; split.
        -- intros [e He]. discriminate.
        -- intros [Hne|[e He]]; [congruence | discriminate].
        -- intros _. right. now exists e.
        -- intros _. eexists. reflexivity.
      * apply pystr_eqb_neq in E. split.
        -- intros _. now left.
        -- intros _. destruct (Hnot E) as [msg [Hrun _]]. rewrite Hrun.
           eexists. reflexivity.
Qed.

Lemma status_check_raises_iff_not_success_witness :
  Some "failed"%string <> Some "success"%string
  /\ exists msg,
       snd (process_with_workitem (sample_oracle fails_at_once)
                                  sample_params [] initial_world)
       = Raise (UserError msg)
       /\ contains "failed" msg
       /\ contains "https://dasprod-store/report.txt" msg.
Proof.
  split; [discriminate|].
  destruct (proj1 (proj1 (proj2 (status_check_raises_iff_not_success
                                   (sample_oracle fails_at_once)))
                     sample_params [] initial_world "token"%string
                     (fst (submit_type_parameters_job
                             (sample_oracle fails_at_once) sample_params
                             "token" (after_token initial_world)))
                     (after_poll "workitem-1" "token"
                        (fst (submit_type_parameters_job
                                (sample_oracle fails_at_once) sample_params
                                "token" (after_token initial_world))))
                     "workitem-1"%string
                     (ActivityOutputParameterAcc
                        "result" "output.rvt" "put"
                        "Result Revit model with added parameters"
                        "urn:adsk.wipprod:fs.folder:co.xyz" "b.project"
                        "house.rvt_01234567.rvt")
                     (Some "failed"%string)
                     (Some "https://dasprod-store/report.txt"%string)
                     eq_refl eq_refl ltac:(vm_compute; reflexivity))
             ltac:(discriminate))
    as [msg [Hrun [Hst Hurl]]].
  exists msg. rewrite Hrun. split; [reflexivity|]. split; [exact Hst|].
  apply Hurl. reflexivity.
Defined.

(** C4, as the specification states it, fails: the work item ends with the
    status "success", the ACC item of the output cannot be created, and
    both workflows raise a [UserError] all the same, whose message is that
    of the refused call and names no status. *)
Lemma success_status_does_not_exclude_an_error :
  snd (poll_loop acc_item_refused_oracle "workitem-1" "token" 0 None None
         (fst (submit_type_parameters_job acc_item_refused_oracle sample_params
                 "token" (after_token initial_world))))
  = Ok (Some "success"%string, Some "https://dasprod-store/report.txt"%string)
  /\ snd (process_with_workitem acc_item_refused_oracle sample_params []
                                initial_world)
     = Raise (UserError
         ("Error in Automation workflow: 403 Client Error: Forbidden"
            ++ nl ++ nl ++ "Details:" ++ nl
            ++ "Traceback (most recent call last): ...")%string)
  /\ snd (poll_loop acc_item_refused_oracle "workitem-1" "token" 0 None None
            (fst (submit_ifc_export_job acc_item_refused_oracle sample_params
                    "token" (after_token initial_world))))
     = Ok (Some "success"%string, Some "https://dasprod-store/report.txt"%string)
  /\ snd (export_to_ifc acc_item_refused_oracle sample_params [] initial_world)
     = Raise (UserError
         ("Error in IFC Export workflow: 403 Client Error: Forbidden"
            ++ nl ++ nl ++ "Details:" ++ nl
            ++ "Traceback (most recent call last): ...")%string).
Proof. repeat split; vm_compute; reflexivity. Qed.

(** C5, as the code has it.  In both workflows the first token request is
    made before the [try]: an exception it raises leaves the workflow as it
    is.  Every exception raised after it, inside the [try], is caught and
    resurfaced as one [UserError] whose message is the heading, [str(e)]
    and, after "Details:", the formatted traceback; when the body raises
    nothing the workflow returns normally. *)
Theorem workflow_failures_in_try_resurface_as_UserError
    (o : oracle) (p : params) (kw : kwargs) (w : world) :
  (forall tok,
     access_token o (tokens w) = Ok tok ->
     match snd (process_with_workitem_body o p tok (after_token w)) with
     | Ok _ => snd (process_with_workitem o p kw w) = Ok tt
     | Raise e =>
         snd (process_with_workitem o p kw w)
         = Raise (UserError ("Error in Automation workflow: " ++ exn_str e
                               ++ nl ++ nl ++ "Details:" ++ nl
                               ++ format_exc o e)%string)
     end
     /\ match snd (export_to_ifc_body o p tok (after_token w)) with
        | Ok _ => snd (export_to_ifc o p kw w) = Ok tt
        | Raise e =>
            snd (export_to_ifc o p kw w)
            = Raise (UserError ("Error in IFC Export workflow: " ++ exn_str e
                                  ++ nl ++ nl ++ "Details:" ++ nl
                                  ++ format_exc o e)%string)
        end)
  /\ (forall e,
        access_token o (tokens w) = Raise e ->
        snd (process_with_workitem o p kw w) = Raise e
        /\ snd (export_to_ifc o p kw w) = Raise e).
Proof.
  split.
  - intros tok Htok. split.
    + rewrite (process_with_workitem_run o p kw w tok Htok).
      destruct (process_with_workitem_body o p tok (after_token w))
        as [w' [[]|e]]; reflexivity.
    + rewrite (export_to_ifc_run o p kw w tok Htok).
      destruct (export_to_ifc_body o p tok (after_token w))
        as [w' [[]|e]]; reflexivity.
  - intros e Htok. split.
    + now rewrite (process_with_workitem_token_fails o p kw w e Htok).
    + now rewrite (export_to_ifc_token_fails o p kw w e Htok).
Qed.

Lemma workflow_failures_in_try_resurface_as_UserError_witness :
  access_token (sample_oracle fails_at_once) (tokens initial_world)
  = Ok "token"%string
  /\ snd (process_with_workitem (sample_oracle fails_at_once)
                                sample_params [] initial_world)
     = Raise (UserError
         ("Error in Automation workflow: "
            ++ "Automation did not finish with success. Status: failed"
            ++ nl ++ "Report URL: https://dasprod-store/report.txt"
            ++ nl ++ nl ++ "Details:" ++ nl
            ++ "Traceback (most recent call last): ...")%string).
Proof.
  split; [reflexivity|].
  pose proof (proj1 (workflow_failures_in_try_resurface_as_UserError
                       (sample_oracle fails_at_once) sample_params []
                       initial_world)
                "token"%string eq_refl) as [Hrun _].
  vm_compute in Hrun. vm_compute. exact Hrun.
Defined.

(** C5, as the specification states it, fails: when the OAuth integration
    refuses the token, both workflows let the [HTTPError] through, which is
    no [UserError] and carries no traceback. *)
Lemma token_failure_escapes_the_workflows :
  snd (process_with_workitem token_denied_oracle sample_params [] initial_world)
  = Raise (OtherException "HTTPError" "401 Client Error: Unauthorized")
  /\ snd (export_to_ifc token_denied_oracle sample_params [] initial_world)
     = Raise (OtherException "HTTPError" "401 Client Error: Unauthorized")
  /\ is_UserError (OtherException "HTTPError" "401 Client Error: Unauthorized")
     = false.
Proof. repeat split. Qed.

(* ===================================================================== *)
(** ** Properties of the view-name callbacks *)
(* ===================================================================== *)

Lemma get_view_names_for_file_run (o : oracle) (version_urn : string) (w : world) :
  snd (get_view_names_for_file o version_urn w) =
  match snd (get_view_names_for_file_body o version_urn w) with
  | Ok names => Ok names
  | Raise _ => Ok []
  end.
Proof.
  unfold get_view_names_for_file, try_except.
  destruct (get_view_names_for_file_body o version_urn w) as [w' [names|e]];
    reflexivity.
Qed.

(** C9. [get_view_names_for_file] never raises: it returns what the body of
    its [try] returns and the empty list when anything in it raises, be it
    the token request, the encoding of the URN, the HTTP request,
    [raise_for_status], the parsing of the body or the reading of the
    manifest. *)
Theorem get_view_names_for_file_never_raises
    (o : oracle) (version_urn : string) (w : world) :
  (forall e, snd (get_view_names_for_file o version_urn w) <> Raise e)
  /\ (exists names, snd (get_view_names_for_file o version_urn w) = Ok names)
  /\ (forall e,
        snd (get_view_names_for_file_body o version_urn w) = Raise e ->
        snd (get_view_names_for_file o version_urn w) = Ok [])
  /\ (forall e,
        access_token o (tokens w) = Raise e ->
        snd (get_view_names_for_file o version_urn w) = Ok [])
  /\ (forall tok encoded,
        access_token o (tokens w) = Ok tok ->
        urlsafe_b64encode o version_urn = Ok encoded ->
        forall resp_or_error,
          manifest_response o
            ("https://developer.api.autodesk.com/modelderivative/v2/designdata/"
               ++ rstrip_eq encoded ++ "/manifest")%string tok = resp_or_error ->
          match resp_or_error with
          | Raise _ => snd (get_view_names_for_file o version_urn w) = Ok []
          | Ok resp =>
              match raise_for_status resp, json resp with
              | Raise _, _ => snd (get_view_names_for_file o version_urn w) = Ok []
              | Ok _, Raise _ => snd (get_view_names_for_file o version_urn w) = Ok []
              | Ok _, Ok manifest =>
                  match get_view_names_from_manifest o manifest with
                  | Raise _ => snd (get_view_names_for_file o version_urn w) = Ok []
                  | Ok names =>
                      snd (get_view_names_for_file o version_urn w) = Ok names
                  end
              end
          end).
Proof.
  rewrite get_view_names_for_file_run.
  split; [|split; [|split; [|split]]].
  - intros e. destruct (snd (get_view_names_for_file_body o version_urn w));
      discriminate.
  - destruct (snd (get_view_names_for_file_body o version_urn w)) as [names|e];
      eexists; reflexivity.
  - intros e ->. reflexivity.
  - intros e Htok. unfold get_view_names_for_file_body, bind, get_access_token.
    now rewrite Htok.
  - intros tok encoded Htok Henc resp_or_error Hresp.
    unfold get_view_names_for_file_body, bind, get_access_token, lift, call.
    rewrite Htok, Henc, Hresp.
    destruct resp_or_error as [resp|e]; [|reflexivity].
    destruct (raise_for_status resp) as [[]|e]; [|reflexivity].
    destruct (json resp) as [manifest|e]; [|reflexivity].
    simpl. destruct (get_view_names_from_manifest o manifest); reflexivity.
Qed.

Lemma get_view_names_for_file_never_raises_witness :
  access_token token_denied_oracle (tokens initial_world)
  = Raise (OtherException "HTTPError" "401 Client Error: Unauthorized")
  /\ snd (get_view_names_for_file token_denied_oracle
            "urn:adsk.wipprod:fs.file:vf.abc?version=1" initial_world)
     = Ok [].
Proof.
  split; [reflexivity|].
  exact (proj1 (proj2 (proj2 (proj2
           (get_view_names_for_file_never_raises token_denied_oracle
              "urn:adsk.wipprod:fs.file:vf.abc?version=1" initial_world))))
           _ eq_refl).
Defined.

(** C10. With no output file selected, [get_view_names_options] returns the
    empty list, makes no call to any external service (the state is
    unchanged) and raises nothing. *)
Theorem get_view_names_options_without_file
    (o : oracle) (p : params) (kw : kwargs) (w : world) :
  output_file p = None ->
  get_view_names_options o p kw w = (w, Ok []).
Proof.
  intros Hnone. unfold get_view_names_options. now rewrite Hnone.
Qed.

Lemma get_view_names_options_without_file_witness :
  output_file table_only_params = None
  /\ get_view_names_options token_denied_oracle table_only_params []
                            initial_world
     = (initial_world, Ok []).
Proof.
  split; [reflexivity|].
  apply (get_view_names_options_without_file token_denied_oracle
           table_only_params [] initial_world).
  reflexivity.
Defined.

(* ===================================================================== *)
(** ** Further properties of the grouping transform *)
(* ===================================================================== *)

(** X1. The targets of the result, read entry after entry, are the
    projections of the rows up to their order: no row is lost, none is
    repeated and none is invented. *)
Theorem create_json_from_params_keeps_all_targets (p : params) (kw : kwargs) :
  Permutation (List.concat (map Targets (create_json_from_params p kw)))
              (map row_target (targets p)).
Proof.
  unfold create_json_from_params. rewrite build_result_targets.
  induction (targets p) as [|r rows IH] using rev_ind; [apply Permutation_refl|].
  rewrite group_rows_snoc, map_app. simpl.
  eapply Permutation_trans; [apply grouped_append_concat|].
  now apply Permutation_app_tail.
Qed.

Lemma distinct_keys_app (ks1 ks2 : list key) :
  exists ext, distinct_keys (ks1 ++ ks2) = distinct_keys ks1 ++ ext.
Proof.
  induction ks2 as [|k ks2 [ext IH]] using rev_ind.
  - exists []. now rewrite !app_nil_r.
  - rewrite app_assoc, distinct_keys_snoc, IH.
    destruct (existsb (key_eqb k) (ks1 ++ ks2)).
    + now exists ext.
    + exists (ext ++ [k]). now rewrite app_assoc.
Qed.

(** X2. Rows added at the end of the table leave the entries already there
    in place: the keys of the old result are a prefix of the keys of the
    new one, and the entry at each old position keeps its key and its
    targets, with the targets of the added rows after them. *)
Theorem create_json_from_params_rows_added
    (p1 p2 : params) (kw1 kw2 : kwargs) (added : list row) :
  targets p2 = targets p1 ++ added ->
  (exists new_keys,
     map config_key (create_json_from_params p2 kw2)
     = map config_key (create_json_from_params p1 kw1) ++ new_keys)
  /\ (forall i c1,
        nth_error (create_json_from_params p1 kw1) i = Some c1 ->
        exists c2,
          nth_error (create_json_from_params p2 kw2) i = Some c2
          /\ config_key c2 = config_key c1
          /\ Targets c2
             = Targets c1 ++ map row_target (rows_with_key (config_key c1) added)).
Proof.
  intros Hadd.
  rewrite (create_json_from_params_refines p1 kw1),
          (create_json_from_params_refines p2 kw2), Hadd.
  destruct (distinct_keys_app (map row_key (targets p1)) (map row_key added))
    as [ext Hext].
  split.
  - rewrite !grouping_spec_keys, map_app, Hext. now exists ext.
  - intros i c1 Hnth. unfold grouping_spec in *.
    rewrite map_app, Hext, map_app.
    revert Hnth. rewrite nth_error_map.
    destruct (nth_error _ i) as [k|] eqn:Hk; simpl; [|discriminate].
    intros Hnth. injection Hnth as <-.
    eexists. split; [|split].
    + rewrite nth_error_app1
        by (rewrite length_map; apply nth_error_Some; unfold key in *;
            congruence).
      apply map_nth_error. exact Hk.
    + reflexivity.
    + simpl. unfold rows_with_key, config_key. simpl.
      destruct k as [a b]. simpl. now rewrite filter_app, map_app.
Qed.

Lemma create_json_from_params_rows_added_witness :
  targets sample_params
  = targets (mk_params None [default_row] None []) ++ tl sample_rows
  /\ exists c2,
       nth_error (create_json_from_params sample_params []) 0 = Some c2
       /\ config_key c2 = (Some "Carbon_Dataset_Code", Some "PG_DATA")%string
       /\ List.length (Targets c2) = 2%nat.
Proof.
  split; [reflexivity|].
  destruct (proj2 (create_json_from_params_rows_added
                     (mk_params None [default_row] None []) sample_params
                     [] [] (tl sample_rows) eq_refl)
              0%nat
              (mk_param_config (Some "Carbon_Dataset_Code"%string)
                               (Some "PG_DATA"%string)
                               [row_target default_row])
              eq_refl)
    as [c2 [Hnth [Hkey Htargets]]].
  exists c2. split; [exact Hnth|]. split; [exact Hkey|].
  rewrite Htargets. reflexivity.
Defined.

Lemma grouped_append_absent (k : key) (t : target) (d : grouped_dict) :
  ~ In k (map fst d) -> grouped_append k t d = d ++ [(k, [t])].
Proof.
  induction d as [|[k' ts] d IH]; simpl; intros Hnot; [reflexivity|].
  destruct (key_eqb k k') eqn:E.
  - apply key_eqb_eq in E. subst. tauto.
  - rewrite IH; [reflexivity | tauto].
Qed.

(** X3. When no two rows share a (parameter name, parameter group) pair,
    nothing is merged: the result has one entry per row, in row order, each
    with the single target of its row. *)
Theorem create_json_from_params_distinct_rows (p : params) (kw : kwargs) :
  NoDup (map row_key (targets p)) ->
  create_json_from_params p kw =
  map (fun r => {| ParameterName := parameter_name r;
                   ParameterGroup := parameter_group r;
                   Targets := [row_target r] |})
      (targets p).
Proof.
  unfold create_json_from_params.
  induction (targets p) as [|r rows IH] using rev_ind; intros Hnd;
    [reflexivity|].
  rewrite map_app in Hnd. simpl in Hnd.
  pose proof (NoDup_remove_1 _ _ _ Hnd) as Hnd'.
  pose proof (NoDup_remove_2 _ _ _ Hnd) as Hnot.
  rewrite app_nil_r in Hnd', Hnot.
  assert (Hkeys : map fst (group_rows rows) = map row_key rows).
  { rewrite group_rows_closed_form, map_map. simpl. rewrite map_id.
    clear -Hnd'. induction rows as [|r0 rows IH]; [reflexivity|].
    simpl in *. inversion Hnd' as [|x l Hx Hl]; subst.
    rewrite IH by assumption. f_equal.
    rewrite forallb_filter_id; [reflexivity|].
    apply forallb_forall. intros k Hk. apply negb_true_iff, key_eqb_neq.
    intros ->. contradiction. }
  rewrite group_rows_snoc, grouped_append_absent by (now rewrite Hkeys).
  unfold build_result in *. rewrite !map_app.
  f_equal. apply IH. assumption.
Qed.

Lemma create_json_from_params_distinct_rows_witness :
  NoDup (map row_key (firstn 2 sample_rows))
  /\ List.length (create_json_from_params
                    (mk_params None (firstn 2 sample_rows) None []) []) = 2%nat.
Proof.
  assert (Hnd : NoDup (map row_key (firstn 2 sample_rows))).
  { simpl. constructor.
    - simpl. intros [H|[]]. discriminate.
    - constructor; [intros [] | constructor]. }
  split; [exact Hnd|].
  rewrite (create_json_from_params_distinct_rows
             (mk_params None (firstn 2 sample_rows) None []) [] Hnd).
  reflexivity.
Defined.

Lemma nonempty_entries_bound (cfg : list param_config) :
  Forall (fun c => Targets c <> []) cfg ->
  (List.length cfg <= total_targets cfg)%nat.
Proof.
  induction 1 as [|c cfg Hc Hcfg IH]; simpl; [lia|].
  destruct (Targets c); [contradiction | simpl; lia].
Qed.

(** X4. The number of parameter configurations never exceeds the number of
    rows, and a table with at least one row gives at least one
    configuration. *)
Theorem create_json_from_params_size (p : params) (kw : kwargs) :
  (List.length (create_json_from_params p kw) <= List.length (targets p))%nat
  /\ (targets p <> [] -> create_json_from_params p kw <> []).
Proof.
  unfold create_json_from_params.
  assert (Hne : Forall (fun c => Targets c <> [])
                       (build_result (group_rows (targets p)))).
  { unfold build_result. apply Forall_map.
    apply (Forall_impl _ (P := fun item => snd item <> [])); [auto|].
    apply group_rows_nonempty. }
  pose proof (nonempty_entries_bound _ Hne) as Hbound.
  rewrite group_rows_total in Hbound. split; [exact Hbound|].
  intros Hrows Hnil.
  pose proof (group_rows_total (targets p)) as Htotal.
  rewrite Hnil in Htotal. simpl in Htotal.
  destruct (targets p); [contradiction | discriminate].
Qed.

Lemma create_json_from_params_size_witness :
  targets sample_params <> []
  /\ create_json_from_params sample_params [] <> [].
Proof.
  assert (Hrows : targets sample_params <> []) by discriminate.
  split; [exact Hrows|].
  exact (proj2 (create_json_from_params_size sample_params []) Hrows).
Defined.

(* ===================================================================== *)
(** ** Further properties of the poll loop *)
(* ===================================================================== *)

Lemma after_rounds_frame (wi_id token : string) (n : nat) :
  forall w,
    tokens (after_rounds n wi_id token w) = tokens w
    /\ exists evs,
         calls (after_rounds n wi_id token w) = calls w ++ evs
         /\ Forall (is_loop_event wi_id token) evs.
Proof.
  induction n as [|n IH]; intros w; simpl.
  - split; [reflexivity|]. exists []. now rewrite app_nil_r.
  - destruct (IH (log (EvSleep poll_interval) (after_poll wi_id token w)))
      as [Htok [evs [Hcalls Hall]]].
    split; [exact Htok|].
    eexists. split.
    + rewrite Hcalls. simpl. rewrite <- !app_assoc. reflexivity.
    + simpl. constructor; [now left|]. constructor; [now right | exact Hall].
Qed.

(** The state in which the loop entered at [elapsed] ends: some full rounds,
    then either one more request or the end of the rounds. *)
Lemma poll_loop_final_state_from (o : oracle) (wi_id token : string) (n : nat) :
  forall (elapsed : Z) (final_status report_url : pystr) (w : world),
    iterations_left elapsed = n ->
    (exists m, (m < n)%nat
               /\ fst (poll_loop o wi_id token elapsed final_status report_url w)
                  = after_poll wi_id token (after_rounds m wi_id token w))
    \/ fst (poll_loop o wi_id token elapsed final_status report_url w)
       = after_rounds n wi_id token w.
Proof.
  induction n as [|n IH]; intros elapsed fs ru w Hn.
  - right.
    assert (Hgt : max_wait < elapsed).
    { destruct (Z_le_dec elapsed max_wait) as [Hle|]; [|lia].
      rewrite (iterations_left_step _ Hle) in Hn. discriminate. }
    now rewrite poll_loop_expired by assumption.
  - assert (Hle : elapsed <= max_wait).
    { destruct (Z_le_dec elapsed max_wait) as [|Hgt]; [assumption|].
      rewrite iterations_left_expired in Hn by lia. discriminate. }
    rewrite (iterations_left_step _ Hle) in Hn. injection Hn as Hn.
    destruct (status_reply o (polls w) wi_id token) as [s|e] eqn:Hreply.
    + destruct (is_terminal (status s)) eqn:Hterm.
      * left. exists 0%nat. split; [lia|].
        now rewrite (poll_loop_breaks _ _ _ _ _ _ _ _ Hle Hreply Hterm).
      * rewrite (poll_loop_continues _ _ _ _ _ _ _ _ Hle Hreply Hterm).
        destruct (IH (elapsed + poll_interval) (status s) (reportUrl s)
                     (log (EvSleep poll_interval) (after_poll wi_id token w)) Hn)
          as [[m [Hm Heq]]|Heq].
        -- left. exists (S m). split; [lia | exact Heq].
        -- right. exact Heq.
    + left. exists 0%nat. split; [lia|].
      now rewrite (poll_loop_request_fails _ _ _ _ _ _ _ _ Hle Hreply).
Qed.

(** X5. Whatever the status endpoint answers, the loop does nothing but
    request the status of its work item, with the token it was given, and
    sleep [poll_interval] seconds: it ends after some full rounds of
    request and sleep followed by one last request, or after all 61 rounds;
    it requests no token. *)
Theorem poll_loop_only_polls_and_sleeps
    (o : oracle) (wi_id token : string) (w : world) :
  ((exists n, (n < max_polls)%nat
              /\ fst (poll_loop o wi_id token 0 None None w)
                 = after_poll wi_id token (after_rounds n wi_id token w))
   \/ fst (poll_loop o wi_id token 0 None None w)
      = after_rounds max_polls wi_id token w)
  /\ tokens (fst (poll_loop o wi_id token 0 None None w)) = tokens w
  /\ exists evs,
       calls (fst (poll_loop o wi_id token 0 None None w)) = calls w ++ evs
       /\ Forall (is_loop_event wi_id token) evs.
Proof.
  rewrite max_polls_value.
  pose proof (poll_loop_final_state_from o wi_id token 61 0 None None w
                iterations_left_start) as Hshape.
  split; [exact Hshape|].
  destruct Hshape as [[n [Hn Heq]]|Heq]; rewrite Heq.
  - destruct (after_rounds_frame wi_id token n w) as [Htok [evs [Hcalls Hall]]].
    split; [exact Htok|].
    exists (evs ++ [EvRequestsGet (DA_V3 ++ "/workitems/" ++ wi_id)%string token]).
    split.
    + unfold after_poll. cbn [calls]. rewrite Hcalls, <- app_assoc. reflexivity.
    + apply Forall_app. split; [exact Hall|]. constructor; [now left|constructor].
  - destruct (after_rounds_frame wi_id token 61 w) as [Htok [evs [Hcalls Hall]]].
    split; [exact Htok|]. exists evs. split; [exact Hcalls | exact Hall].
Qed.

Lemma poll_loop_result_from (o : oracle) (wi_id token : string) (n : nat) :
  forall (elapsed : Z) (fs0 ru0 : pystr) (w w' : world) (fs ru : pystr),
    iterations_left elapsed = n ->
    poll_loop o wi_id token elapsed fs0 ru0 w = (w', Ok (fs, ru)) ->
    (polls w' = polls w /\ fs = fs0 /\ ru = ru0)
    \/ ((polls w < polls w')%nat
        /\ exists s, status_reply o (pred (polls w')) wi_id token = Ok s
                     /\ status s = fs /\ reportUrl s = ru).
Proof.
  induction n as [|n IH]; intros elapsed fs0 ru0 w w' fs ru Hn Hrun.
  - assert (Hgt : max_wait < elapsed).
    { destruct (Z_le_dec elapsed max_wait) as [Hle|]; [|lia].
      rewrite (iterations_left_step _ Hle) in Hn. discriminate. }
    rewrite poll_loop_expired in Hrun by assumption.
    injection Hrun as <- <- <-. left. auto.
  - assert (Hle : elapsed <= max_wait).
    { destruct (Z_le_dec elapsed max_wait) as [|Hgt]; [assumption|].
      rewrite iterations_left_expired in Hn by lia. discriminate. }
    rewrite (iterations_left_step _ Hle) in Hn. injection Hn as Hn.
    right.
    destruct (status_reply o (polls w) wi_id token) as [s|e] eqn:Hreply.
    + destruct (is_terminal (status s)) eqn:Hterm.
      * rewrite (poll_loop_breaks _ _ _ _ _ _ _ _ Hle Hreply Hterm) in Hrun.
        injection Hrun as <- <- <-. simpl. split; [lia|]. now exists s.
      * rewrite (poll_loop_continues _ _ _ _ _ _ _ _ Hle Hreply Hterm) in Hrun.
        destruct (IH _ _ _ _ _ _ _ Hn Hrun) as [[Hp [-> ->]]|[Hp [s' Hs']]];
          simpl in Hp.
        -- split; [lia|]. rewrite Hp. simpl. now exists s.
        -- split; [lia|]. now exists s'.
    + rewrite (poll_loop_request_fails _ _ _ _ _ _ _ _ Hle Hreply) in Hrun.
      discriminate.
Qed.

(** X6. When the loop ends normally, the status and the report URL it
    yields are those of the last answer of the status endpoint: at least
    one request was made, and the initial [None] values never come out. *)
Theorem poll_loop_yields_last_answer
    (o : oracle) (wi_id token : string) (w w' : world) (fs ru : pystr) :
  poll_loop o wi_id token 0 None None w = (w', Ok (fs, ru)) ->
  (polls w < polls w')%nat
  /\ exists s, status_reply o (pred (polls w')) wi_id token = Ok s
               /\ status s = fs /\ reportUrl s = ru.
Proof.
  intros Hrun.
  destruct (poll_loop_result_from o wi_id token 61 0 None None w w' fs ru
              iterations_left_start Hrun) as [[Hp _]|Hlast]; [|exact Hlast].
  pose proof (poll_loop_polls_once o wi_id token 0 None None w) as Honce.
  rewrite Hrun in Honce. simpl in Honce.
  assert (0 <= max_wait) by (unfold max_wait; lia). lia.
Qed.

Lemma poll_loop_yields_last_answer_witness :
  poll_loop (sample_oracle succeeds_at_fourth) "workitem-1" "token" 0 None None
            initial_world
  = (after_poll "workitem-1" "token"
       (after_rounds 3 "workitem-1" "token" initial_world),
     Ok (Some "success"%string, Some "https://dasprod-store/report.txt"%string))
  /\ exists s,
       status_reply (sample_oracle succeeds_at_fourth) 3 "workitem-1" "token"
       = Ok s
       /\ status s = Some "success"%string.
Proof.
  assert (Hrun :
    poll_loop (sample_oracle succeeds_at_fourth) "workitem-1" "token" 0 None None
              initial_world
    = (after_poll "workitem-1" "token"
         (after_rounds 3 "workitem-1" "token" initial_world),
       Ok (Some "success"%string,
           Some "https://dasprod-store/report.txt"%string)))
    by (vm_compute; reflexivity).
  split; [exact Hrun|].
  destruct (poll_loop_yields_last_answer _ _ _ _ _ _ _ Hrun)
    as [_ [s [Hreply [Hstatus _]]]].
  exists s. split; [exact Hreply | exact Hstatus].
Defined.

(** X7. A status request that raises ends the loop at once: after [k]
    rounds with non-terminal answers, the exception of request [k] leaves
    the loop without a retry, a sleep or a further request. *)
Theorem poll_loop_aborts_on_failed_request
    (o : oracle) (wi_id token : string) (w : world) (k : nat) (e : exn) :
  (k < max_polls)%nat ->
  (forall i, (i < k)%nat ->
     exists s, status_reply o (polls w + i) wi_id token = Ok s
               /\ is_terminal (status s) = false) ->
  status_reply o (polls w + k) wi_id token = Raise e ->
  poll_loop o wi_id token 0 None None w
  = (after_poll wi_id token (after_rounds k wi_id token w), Raise e).
Proof.
  rewrite max_polls_value. intros Hk Hall Hfail.
  destruct k as [|k].
  - rewrite Nat.add_0_r in Hfail. cbn [after_rounds].
    apply poll_loop_request_fails; [unfold max_wait; lia | exact Hfail].
  - destruct (poll_loop_rounds o wi_id token k 0 None None w) as [s [_ [_ Heq]]].
    + intros i Hi. apply Hall. lia.
    + unfold max_wait, poll_interval. lia.
    + rewrite Heq. apply poll_loop_request_fails.
      * unfold max_wait, poll_interval. lia.
      * rewrite polls_after_rounds. exact Hfail.
Qed.

Lemma poll_loop_aborts_on_failed_request_witness :
  (2 < max_polls)%nat
  /\ status_reply third_request_fails_oracle (polls initial_world + 2)
                  "workitem-1" "token"
     = Raise (OtherException "ReadTimeout" "read timed out")
  /\ poll_loop third_request_fails_oracle "workitem-1" "token" 0 None None
               initial_world
     = (after_poll "workitem-1" "token"
          (after_rounds 2 "workitem-1" "token" initial_world),
        Raise (OtherException "ReadTimeout" "read timed out")).
Proof.
  assert (Hk : (2 < max_polls)%nat) by (rewrite max_polls_value; lia).
  split; [exact Hk|]. split; [reflexivity|].
  apply (poll_loop_aborts_on_failed_request third_request_fails_oracle
           "workitem-1" "token" initial_world 2
           (OtherException "ReadTimeout" "read timed out") Hk).
  - intros i Hi. exists {| status := Some "pending"%string; reportUrl := None |}.
    destruct i as [|[|i]]; [split; reflexivity | split; reflexivity | lia].
  - reflexivity.
Defined.

(* ===================================================================== *)
(** ** Further properties of the workflows *)
(* ===================================================================== *)

Lemma bind_ok_inv {A B} (m : M A) (k : A -> M B) (w w' : world) (b : B) :
  bind m k w = (w', Ok b) ->
  exists a w1, m w = (w1, Ok a) /\ k a w1 = (w', Ok b).
Proof.
  unfold bind. destruct (m w) as [w1 [a|e]]; intros H; [|discriminate].
  now exists a, w1.
Qed.

Lemma call_ok_inv {A} (ev : event) (r : result A) (w w' : world) (a : A) :
  call ev r w = (w', Ok a) -> r = Ok a /\ w' = log ev w.
Proof. unfold call. intros H. injection H as <- ->. auto. Qed.

Lemma lift_ok_inv {A} (r : result A) (w w' : world) (a : A) :
  lift r w = (w', Ok a) -> r = Ok a /\ w' = w.
Proof. unfold lift. intros H. injection H as <- ->. auto. Qed.

Lemma get_access_token_ok_inv (o : oracle) (name : string) (w w' : world)
    (tok : string) :
  get_access_token o name w = (w', Ok tok) ->
  access_token o (tokens w) = Ok tok
  /\ w' = {| calls := calls w ++ [EvGetAccessToken name];
             tokens := S (tokens w);
             polls := polls w |}.
Proof. unfold get_access_token. intros H. injection H as <- ->. auto. Qed.

Lemma check_final_status_ok_inv (what : string) (fs ru : pystr) (w w' : world)
    (u : unit) :
  check_final_status what fs ru w = (w', Ok u) ->
  fs = Some "success"%string /\ w' = w.
Proof.
  unfold check_final_status.
  destruct (pystr_eqb fs (Some "success"%string)) eqn:E; simpl.
  - intros H. injection H as <-. apply pystr_eqb_eq in E. auto.
  - discriminate.
Qed.

(** The version detection in closed form. *)
Lemma detect_revit_version_run (o : oracle) (f : autodesk_file) (token : string)
    (w : world) :
  detect_revit_version o f token w
  = (log (EvFetchManifest f token) w, Ok (revit_version_for o f token)).
Proof.
  unfold detect_revit_version, revit_version_for, try_except, bind,
    fetch_manifest, call, lift.
  destruct (manifest_of_file o f token) as [m|e]; [|reflexivity].
  destruct (get_revit_version_from_manifest o m) as [rv|e]; [|reflexivity].
  destruct (truthy rv); reflexivity.
Qed.

(** X8. A version detection never fails a workflow: whatever the manifest
    request and its reading do, it makes the one manifest request and yields
    a version, which is the one read from the manifest when that is a
    non-empty value and [DEFAULT_REVIT_VERSION] in every other case. *)
Theorem detect_revit_version_falls_back
    (o : oracle) (f : autodesk_file) (token : string) (w : world) :
  (exists rv,
     detect_revit_version o f token w = (log (EvFetchManifest f token) w, Ok rv)
     /\ (truthy rv = true \/ rv = DEFAULT_REVIT_VERSION o)
     /\ (forall m found,
           manifest_of_file o f token = Ok m ->
           get_revit_version_from_manifest o m = Ok found ->
           truthy found = true -> rv = found))
  /\ (forall e, manifest_of_file o f token = Raise e ->
       snd (detect_revit_version o f token w) = Ok (DEFAULT_REVIT_VERSION o))
  /\ (forall m,
        manifest_of_file o f token = Ok m ->
        match get_revit_version_from_manifest o m with
        | Raise _ | Ok None | Ok (Some EmptyString) =>
            snd (detect_revit_version o f token w) = Ok (DEFAULT_REVIT_VERSION o)
        | Ok (Some version) =>
            snd (detect_revit_version o f token w) = Ok (Some version)
        end).
Proof.
  rewrite detect_revit_version_run. unfold revit_version_for. split; [|split].
  - eexists. split; [reflexivity|]. split.
    + destruct (manifest_of_file o f token) as [m|e]; [|now right].
      destruct (get_revit_version_from_manifest o m) as [rv|e]; [|now right].
      destruct (truthy rv) eqn:E; [now left | now right].
    + intros m found -> -> ->. reflexivity.
  - intros e ->. reflexivity.
  - intros m ->.
    destruct (get_revit_version_from_manifest o m) as [[[|c rest]|]|e];
      reflexivity.
Qed.

Lemma detect_revit_version_falls_back_witness :
  manifest_of_file manifest_missing_oracle sample_file "token"
  = Raise (OtherException "HTTPError" "404 Client Error: Not Found")
  /\ snd (detect_revit_version manifest_missing_oracle sample_file "token"
                               initial_world)
     = Ok (Some "2024"%string).
Proof.
  split; [reflexivity|].
  exact (proj1 (proj2 (detect_revit_version_falls_back manifest_missing_oracle
                         sample_file "token" initial_world))
           _ eq_refl).
Defined.

(** X9. An incomplete form stops a workflow before anything is submitted:
    with no input file [process_with_workitem], and with no updated file or
    no selected view [export_to_ifc], raise the [UserError] of the check,
    resurfaced by the handler, and the token request that precedes the
    [try] is the only call made. *)
Theorem workflows_reject_incomplete_forms
    (o : oracle) (p : params) (kw : kwargs) (w : world) (tok : string) :
  access_token o (tokens w) = Ok tok ->
  (input_file p = None ->
   process_with_workitem o p kw w
   = (after_token w,
      Raise (resurfaced o "Error in Automation workflow: "
               (UserError "Please select an input Revit file"))))
  /\ (output_file p = None ->
      export_to_ifc o p kw w
      = (after_token w,
         Raise (resurfaced o "Error in IFC Export workflow: "
                  (UserError
                     "Please select the updated Revit file in the 'View Updated Model' section"))))
  /\ (output_file p <> None ->
      selected_views_for_ifc p = [] ->
      export_to_ifc o p kw w
      = (after_token w,
         Raise (resurfaced o "Error in IFC Export workflow: "
                  (UserError "Please select at least one view to export to IFC.")))).
Proof.
  intros Htok. split; [|split].
  - intros Hfile. rewrite (process_with_workitem_run o p kw w tok Htok).
    unfold process_with_workitem_body, submit_type_parameters_job, bind.
    now rewrite Hfile.
  - intros Hfile. rewrite (export_to_ifc_run o p kw w tok Htok).
    unfold export_to_ifc_body, submit_ifc_export_job, bind.
    now rewrite Hfile.
  - intros Hfile Hviews. rewrite (export_to_ifc_run o p kw w tok Htok).
    unfold export_to_ifc_body, submit_ifc_export_job, bind.
    destruct (output_file p) as [f|]; [|contradiction].
    now rewrite Hviews.
Qed.

Lemma workflows_reject_incomplete_forms_witness :
  access_token (sample_oracle never_finishes) (tokens initial_world)
  = Ok "token"%string
  /\ input_file empty_form = None
  /\ calls (fst (process_with_workitem (sample_oracle never_finishes)
                                       empty_form [] initial_world))
     = [EvGetAccessToken "aps-integration-design"]
  /\ output_file no_view_params <> None
  /\ selected_views_for_ifc no_view_params = []
  /\ calls (fst (export_to_ifc (sample_oracle never_finishes)
                               no_view_params [] initial_world))
     = [EvGetAccessToken "aps-integration-design"].
Proof.
  assert (Hfile : output_file no_view_params <> None) by discriminate.
  split; [reflexivity|]. split; [reflexivity|]. split.
  - rewrite (proj1 (workflows_reject_incomplete_forms
                      (sample_oracle never_finishes) empty_form []
                      initial_world "token" eq_refl) eq_refl).
    reflexivity.
  - split; [exact Hfile|]. split; [reflexivity|].
    rewrite (proj2 (proj2 (workflows_reject_incomplete_forms
                             (sample_oracle never_finishes) no_view_params []
                             initial_world "token" eq_refl))
               Hfile eq_refl).
    reflexivity.
Defined.

(** X10. A workflow returns normally only when its work item ended with the
    status "success" and the ACC item of the output was then created:
    creating the item is the last call of the run. *)
Theorem workflows_return_only_on_success
    (o : oracle) (p : params) (kw : kwargs) (w w' : world) :
  (process_with_workitem o p kw w = (w', Ok tt) ->
   exists tok w1 wi out w2 ru,
     access_token o (tokens w) = Ok tok
     /\ submit_type_parameters_job o p tok (after_token w) = (w1, Ok (wi, out))
     /\ poll_loop o wi tok 0 None None w1 = (w2, Ok (Some "success"%string, ru))
     /\ acc_item_created o out tok = Ok tt
     /\ w' = log (EvCreateAccItem out tok) w2)
  /\ (export_to_ifc o p kw w = (w', Ok tt) ->
      exists tok w1 wi out w2 ru,
        access_token o (tokens w) = Ok tok
        /\ submit_ifc_export_job o p tok (after_token w) = (w1, Ok (wi, out))
        /\ poll_loop o wi tok 0 None None w1 = (w2, Ok (Some "success"%string, ru))
        /\ acc_item_created o out tok = Ok tt
        /\ w' = log (EvCreateAccItem out tok) w2).
Proof.
  split; intros Hrun.
  - destruct (access_token o (tokens w)) as [tok|e] eqn:Htok.
    2: { rewrite (process_with_workitem_token_fails o p kw w e Htok) in Hrun.
         discriminate. }
    rewrite (process_with_workitem_run o p kw w tok Htok) in Hrun.
    destruct (process_with_workitem_body o p tok (after_token w))
      as [w0 [[]|e]] eqn:Hbody; [|discriminate].
    injection Hrun as ->.
    unfold process_with_workitem_body in Hbody.
    apply bind_ok_inv in Hbody. destruct Hbody as [[wi out] [w1 [Hsubmit Hbody]]].
    apply bind_ok_inv in Hbody. destruct Hbody as [[fs ru] [w2 [Hloop Hbody]]].
    apply bind_ok_inv in Hbody. destruct Hbody as [u [w3 [Hcheck Hcreate]]].
    apply check_final_status_ok_inv in Hcheck. destruct Hcheck as [-> ->].
    apply call_ok_inv in Hcreate. destruct Hcreate as [Hcreated ->].
    exists tok, w1, wi, out, w2, ru. auto.
  - destruct (access_token o (tokens w)) as [tok|e] eqn:Htok.
    2: { rewrite (export_to_ifc_token_fails o p kw w e Htok) in Hrun.
         discriminate. }
    rewrite (export_to_ifc_run o p kw w tok Htok) in Hrun.
    destruct (export_to_ifc_body o p tok (after_token w))
      as [w0 [[]|e]] eqn:Hbody; [|discriminate].
    injection Hrun as ->.
    unfold export_to_ifc_body in Hbody.
    apply bind_ok_inv in Hbody. destruct Hbody as [[wi out] [w1 [Hsubmit Hbody]]].
    apply bind_ok_inv in Hbody. destruct Hbody as [[fs ru] [w2 [Hloop Hbody]]].
    apply bind_ok_inv in Hbody. destruct Hbody as [u [w3 [Hcheck Hcreate]]].
    apply check_final_status_ok_inv in Hcheck. destruct Hcheck as [-> ->].
    apply call_ok_inv in Hcreate. destruct Hcreate as [Hcreated ->].
    exists tok, w1, wi, out, w2, ru. auto.
Qed.

Lemma workflows_return_only_on_success_witness :
  process_with_workitem (sample_oracle succeeds_at_fourth) sample_params []
                        initial_world
  = (fst (process_with_workitem (sample_oracle succeeds_at_fourth)
                                sample_params [] initial_world),
     Ok tt)
  /\ exists tok w1 wi out w2 ru,
       access_token (sample_oracle succeeds_at_fourth) (tokens initial_world)
       = Ok tok
       /\ submit_type_parameters_job (sample_oracle succeeds_at_fourth)
                                     sample_params tok (after_token initial_world)
          = (w1, Ok (wi, out))
       /\ poll_loop (sample_oracle succeeds_at_fourth) wi tok 0 None None w1
          = (w2, Ok (Some "success"%string, ru))
       /\ acc_item_created (sample_oracle succeeds_at_fourth) out tok = Ok tt
       /\ fst (process_with_workitem (sample_oracle succeeds_at_fourth)
                                     sample_params [] initial_world)
          = log (EvCreateAccItem out tok) w2.
Proof.
  assert (Hrun :
    process_with_workitem (sample_oracle succeeds_at_fourth) sample_params []
                          initial_world
    = (fst (process_with_workitem (sample_oracle succeeds_at_fourth)
                                  sample_params [] initial_world),
       Ok tt))
    by (vm_compute; reflexivity).
  split; [exact Hrun|].
  exact (proj1 (workflows_return_only_on_success
                  (sample_oracle succeeds_at_fourth) sample_params []
                  initial_world _) Hrun).
Defined.

(** X11. A work item for type parameters is submitted only after the input
    file, a second token, the latest version, the activity signature, the
    target folder and the upload of the configuration were all obtained, in
    that order and with no other call.  The configuration uploaded and sent
    with the work item is the grouping of the table rows; the result goes to
    the folder of the input file, in the same project, under the display
    name of the version followed by "_", eight characters of a UUID and
    ".rvt". *)
Theorem submit_type_parameters_job_protocol
    (o : oracle) (p : params) (tok : string) (w w' : world)
    (wi : string) (out : activity_parameter) :
  submit_type_parameters_job o p tok w = (w', Ok (wi, out)) ->
  exists f tok2 version signature alias folder,
    input_file p = Some f
    /\ access_token o (tokens w) = Ok tok2
    /\ latest_version o f tok2 = Ok version
    /\ get_type_parameters_signature o (revit_version_for o f tok)
       = Ok (signature, alias)
    /\ parent_folder o (project_id f) (urn f) tok = Ok folder
    /\ out = ActivityOutputParameterAcc
               "result" "output.rvt" "put"
               "Result Revit model with added parameters"
               folder (project_id f)
               (display_name_of version ++ "_" ++ substring 0 8 (uuid4_hex o)
                  ++ ".rvt")%string
    /\ calls w' =
       calls w ++
       [ EvGetAccessToken "aps-integration-design";
         EvGetLatestVersion f tok2;
         EvFetchManifest f tok;
         EvParentFolderFromItem (project_id f) (urn f) tok;
         EvSetContent (TypeParamsContent (grouping_spec (targets p)));
         EvRunPublicActivity
           {| parameters :=
                [ ActivityInputParameterAcc "rvtFile" "input.rvt" "get"
                    "Input Revit File" true true (project_id f) (urn f);
                  ActivityJsonParameter "configJson" "revit_type_params.json"
                    "revit_type_params.json" "get"
                    "Type parameter JSON configuration"
                    (TypeParamsContent (grouping_spec (targets p)));
                  out ];
              activity_full_alias := alias |}
           tok signature ]
    /\ tokens w' = S (tokens w)
    /\ polls w' = polls w.
Proof.
  intros Hrun. unfold submit_type_parameters_job in Hrun.
  apply bind_ok_inv in Hrun. destruct Hrun as [f [w1 [Hfile Hrun]]].
  destruct (input_file p) as [f0|] eqn:Hinput; [|discriminate].
  injection Hfile as <- <-.
  apply bind_ok_inv in Hrun. destruct Hrun as [tok2 [w2 [Htok Hrun]]].
  apply get_access_token_ok_inv in Htok. destruct Htok as [Htok ->].
  apply bind_ok_inv in Hrun. destruct Hrun as [version [w3 [Hversion Hrun]]].
  apply call_ok_inv in Hversion. destruct Hversion as [Hversion ->].
  apply bind_ok_inv in Hrun. destruct Hrun as [rv [w4 [Hdetect Hrun]]].
  rewrite detect_revit_version_run in Hdetect. injection Hdetect as <- <-.
  apply bind_ok_inv in Hrun. destruct Hrun as [[signature alias] [w5 [Hsig Hrun]]].
  apply lift_ok_inv in Hsig. destruct Hsig as [Hsig ->].
  apply bind_ok_inv in Hrun. destruct Hrun as [folder [w6 [Hfolder Hrun]]].
  apply call_ok_inv in Hfolder. destruct Hfolder as [Hfolder ->].
  apply bind_ok_inv in Hrun. destruct Hrun as [u [w7 [Hset Hrun]]].
  apply call_ok_inv in Hset. destruct Hset as [Hset ->].
  apply bind_ok_inv in Hrun. destruct Hrun as [wi0 [w8 [Hsubmit Hrun]]].
  apply call_ok_inv in Hsubmit. destruct Hsubmit as [Hsubmit ->].
  unfold ret in Hrun. injection Hrun as <- <- <-.
  exists f0, tok2, version, signature, alias, folder.
  rewrite <- (create_json_from_params_refines p []).
  repeat split; try assumption.
  unfold log. simpl. rewrite <- !app_assoc. reflexivity.
Qed.

Lemma submit_type_parameters_job_protocol_witness :
  submit_type_parameters_job (sample_oracle never_finishes) sample_params
                             "token" (after_token initial_world)
  = (fst (submit_type_parameters_job (sample_oracle never_finishes)
            sample_params "token" (after_token initial_world)),
     Ok ("workitem-1"%string,
         ActivityOutputParameterAcc
           "result" "output.rvt" "put"
           "Result Revit model with added parameters"
           "urn:adsk.wipprod:fs.folder:co.xyz" "b.project"
           "house.rvt_01234567.rvt"))
  /\ tokens (fst (submit_type_parameters_job (sample_oracle never_finishes)
                    sample_params "token" (after_token initial_world)))
     = 2%nat.
Proof.
  assert (Hrun :
    submit_type_parameters_job (sample_oracle never_finishes) sample_params
                               "token" (after_token initial_world)
    = (fst (submit_type_parameters_job (sample_oracle never_finishes)
              sample_params "token" (after_token initial_world)),
       Ok ("workitem-1"%string,
           ActivityOutputParameterAcc
             "result" "output.rvt" "put"
             "Result Revit model with added parameters"
             "urn:adsk.wipprod:fs.folder:co.xyz" "b.project"
             "house.rvt_01234567.rvt")))
    by (vm_compute; reflexivity).
  split; [exact Hrun|].
  destruct (submit_type_parameters_job_protocol _ _ _ _ _ _ _ Hrun)
    as [f [tok2 [version [signature [alias [folder H]]]]]].
  destruct H as [_ [_ [_ [_ [_ [_ [_ [Htokens _]]]]]]]].
  exact Htokens.
Defined.

(** X12. A work item for an IFC export is submitted only when a file and at
    least one view are selected, after the activity signature, the target
    folder, the IFC settings built from the selected views, their upload and
    the latest version were obtained, in that order, with no other call and
    no further token.  The result goes to the folder of the file, under the
    display name followed by "_IFC_", eight characters of a UUID and
    ".zip". *)
Theorem submit_ifc_export_job_protocol
    (o : oracle) (p : params) (tok : string) (w w' : world)
    (wi : string) (out : activity_parameter) :
  submit_ifc_export_job o p tok w = (w', Ok (wi, out)) ->
  exists f signature alias folder ifc_config version,
    output_file p = Some f
    /\ selected_views_for_ifc p <> []
    /\ get_ifc_export_signature o (revit_version_for o f tok)
       = Ok (signature, alias)
    /\ parent_folder o (project_id f) (urn f) tok = Ok folder
    /\ create_ifc_export_json o (selected_views_for_ifc p) = Ok ifc_config
    /\ latest_version o f tok = Ok version
    /\ out = ActivityOutputParameterAcc
               "result" "result.zip" "put" "Zipped IFC files"
               folder (project_id f)
               (display_name_of version ++ "_IFC_" ++ substring 0 8 (uuid4_hex o)
                  ++ ".zip")%string
    /\ calls w' =
       calls w ++
       [ EvFetchManifest f tok;
         EvParentFolderFromItem (project_id f) (urn f) tok;
         EvSetContent (IfcContent ifc_config);
         EvGetLatestVersion f tok;
         EvRunPublicActivity
           {| parameters :=
                [ ActivityInputParameterAcc "rvtFile" "input.rvt" "get"
                    "Input Revit File for IFC export" true true
                    (project_id f) (urn f);
                  ActivityJsonParameter "ifcSettings" "ifc_settings.json"
                    "ifc_settings.json" "get" "IFC Export Settings"
                    (IfcContent ifc_config);
                  out ];
              activity_full_alias := alias |}
           tok signature ]
    /\ tokens w' = tokens w
    /\ polls w' = polls w.
Proof.
  intros Hrun. unfold submit_ifc_export_job in Hrun.
  apply bind_ok_inv in Hrun. destruct Hrun as [f [w1 [Hfile Hrun]]].
  destruct (output_file p) as [f0|] eqn:Hinput; [|discriminate].
  injection Hfile as <- <-.
  apply bind_ok_inv in Hrun. destruct Hrun as [u0 [w2 [Hviews Hrun]]].
  destruct (selected_views_for_ifc p) as [|view views] eqn:Hselected;
    [discriminate|].
  injection Hviews as <-.
  apply bind_ok_inv in Hrun. destruct Hrun as [rv [w4 [Hdetect Hrun]]].
  rewrite detect_revit_version_run in Hdetect. injection Hdetect as <- <-.
  apply bind_ok_inv in Hrun. destruct Hrun as [[signature alias] [w5 [Hsig Hrun]]].
  apply lift_ok_inv in Hsig. destruct Hsig as [Hsig ->].
  apply bind_ok_inv in Hrun. destruct Hrun as [folder [w6 [Hfolder Hrun]]].
  apply call_ok_inv in Hfolder. destruct Hfolder as [Hfolder ->].
  apply bind_ok_inv in Hrun. destruct Hrun as [ifc_config [w7 [Hifc Hrun]]].
  apply lift_ok_inv in Hifc. destruct Hifc as [Hifc ->].
  apply bind_ok_inv in Hrun. destruct Hrun as [u [w8 [Hset Hrun]]].
  apply call_ok_inv in Hset. destruct Hset as [Hset ->].
  apply bind_ok_inv in Hrun. destruct Hrun as [version [w9 [Hversion Hrun]]].
  apply call_ok_inv in Hversion. destruct Hversion as [Hversion ->].
  apply bind_ok_inv in Hrun. destruct Hrun as [wi0 [w10 [Hsubmit Hrun]]].
  apply call_ok_inv in Hsubmit. destruct Hsubmit as [Hsubmit ->].
  unfold ret in Hrun. injection Hrun as <- <- <-.
  exists f0, signature, alias, folder, ifc_config, version.
  repeat split; try assumption; try discriminate.
  unfold log. simpl. rewrite <- !app_assoc. reflexivity.
Qed.

Lemma submit_ifc_export_job_protocol_witness :
  submit_ifc_export_job (sample_oracle never_finishes) sample_params
                        "token" (after_token initial_world)
  = (fst (submit_ifc_export_job (sample_oracle never_finishes)
            sample_params "token" (after_token initial_world)),
     Ok ("workitem-1"%string,
         ActivityOutputParameterAcc
           "result" "result.zip" "put" "Zipped IFC files"
           "urn:adsk.wipprod:fs.folder:co.xyz" "b.project"
           "house.rvt_IFC_01234567.zip"))
  /\ tokens (fst (submit_ifc_export_job (sample_oracle never_finishes)
                    sample_params "token" (after_token initial_world)))
     = 1%nat.
Proof.
  assert (Hrun :
    submit_ifc_export_job (sample_oracle never_finishes) sample_params
                          "token" (after_token initial_world)
    = (fst (submit_ifc_export_job (sample_oracle never_finishes)
              sample_params "token" (after_token initial_world)),
       Ok ("workitem-1"%string,
           ActivityOutputParameterAcc
             "result" "result.zip" "put" "Zipped IFC files"
             "urn:adsk.wipprod:fs.folder:co.xyz" "b.project"
             "house.rvt_IFC_01234567.zip")))
    by (vm_compute; reflexivity).
  split; [exact Hrun|].
  destruct (submit_ifc_export_job_protocol _ _ _ _ _ _ _ Hrun)
    as [f [signature [alias [folder [ifc_config [version H]]]]]].
  destruct H as [_ [_ [_ [_ [_ [_ [_ [_ [Htokens _]]]]]]]]].
  exact Htokens.
Defined.

(* ===================================================================== *)
(** ** Further properties of the view-name callbacks *)
(* ===================================================================== *)

(** X13. With an output file selected, [get_view_names_options] fails only
    when its own token request or the version lookup fails, with their
    exception; otherwise it returns one option per view name that
    [get_view_names_for_file] gives for the URN of the latest version, in
    the same order, the name being both label and value. *)
Theorem get_view_names_options_with_file
    (o : oracle) (p : params) (kw : kwargs) (w : world) (f : autodesk_file) :
  output_file p = Some f ->
  match access_token o (tokens w) with
  | Raise e => snd (get_view_names_options o p kw w) = Raise e
  | Ok tok =>
      match latest_version o f tok with
      | Raise e => snd (get_view_names_options o p kw w) = Raise e
      | Ok version =>
          exists names,
            snd (get_view_names_for_file o (version_urn version)
                   (log (EvGetLatestVersion f tok) (after_token w)))
            = Ok names
            /\ snd (get_view_names_options o p kw w)
               = Ok (map (fun name => {| label := name; option_value := name |})
                         names)
      end
  end.
Proof.
  intros Hfile. unfold get_view_names_options. rewrite Hfile.
  destruct (access_token o (tokens w)) as [tok|e] eqn:Htok.
  2: { unfold bind, get_access_token. now rewrite Htok. }
  destruct (latest_version o f tok) as [version|e] eqn:Hversion.
  2: { unfold bind, get_access_token, get_latest_version, call.
       now rewrite Htok, Hversion. }
  pose proof (get_view_names_for_file_run o (version_urn version)
                (log (EvGetLatestVersion f tok) (after_token w))) as Hrun.
  destruct (get_view_names_for_file o (version_urn version)
              (log (EvGetLatestVersion f tok) (after_token w)))
    as [w3 [names|e]] eqn:Hnames; simpl in Hrun.
  - exists names. split; [reflexivity|].
    unfold bind, get_access_token, get_latest_version, call.
    rewrite Htok, Hversion. unfold after_token in Hnames. rewrite Hnames.
    reflexivity.
  - destruct (snd (get_view_names_for_file_body o (version_urn version)
                     (log (EvGetLatestVersion f tok) (after_token w))));
      discriminate.
Qed.

Lemma get_view_names_options_with_file_witness :
  output_file sample_params = Some sample_file
  /\ snd (get_view_names_options (sample_oracle never_finishes) sample_params []
                                 initial_world)
     = Ok [ {| label := "3D"; option_value := "3D" |} ]%string.
Proof.
  split; [reflexivity|].
  destruct (get_view_names_options_with_file (sample_oracle never_finishes)
              sample_params [] initial_world sample_file eq_refl)
    as [names [Hnames Hoptions]].
  rewrite Hoptions. vm_compute in Hnames. injection Hnames as <-. reflexivity.
Defined.

(** X14. Each run of the body of [get_view_names_for_file], that is each
    call that [vkt.memoize] does not answer from its cache, requests one
    token and, when it got the token and could encode the URN, makes exactly
    one GET, with that token, on the manifest URL of the encoded URN without
    its padding; with no token or no encoding it makes no request.  It
    never polls, and the handler of the [try] adds no call. *)
Theorem get_view_names_for_file_body_calls
    (o : oracle) (version_urn : string) (w : world) :
  tokens (fst (get_view_names_for_file_body o version_urn w)) = S (tokens w)
  /\ polls (fst (get_view_names_for_file_body o version_urn w)) = polls w
  /\ match access_token o (tokens w), urlsafe_b64encode o version_urn with
     | Ok tok, Ok encoded =>
         calls (fst (get_view_names_for_file_body o version_urn w))
         = calls w ++ [ EvGetAccessToken "aps-integration-design";
                        EvRequestsGet (manifest_url (rstrip_eq encoded)) tok ]
     | _, _ =>
         calls (fst (get_view_names_for_file_body o version_urn w))
         = calls w ++ [ EvGetAccessToken "aps-integration-design" ]
     end
  /\ fst (try_except (get_view_names_for_file_body o version_urn)
                     (fun _ => ret []) w)
     = fst (get_view_names_for_file_body o version_urn w).
Proof.
  split; [|split; [|split]].
  4: { unfold try_except, ret.
       destruct (get_view_names_for_file_body o version_urn w) as [w' [names|e]];
         reflexivity. }
  all: unfold get_view_names_for_file_body, bind, get_access_token, lift, call,
         manifest_url.
  all: destruct (access_token o (tokens w)) as [tok|e]; [|simpl; auto].
  all: destruct (urlsafe_b64encode o version_urn) as [encoded|e]; [|simpl; auto].
  all: destruct (manifest_response o _ tok) as [resp|e];
         [|simpl; try rewrite <- app_assoc; auto].
  all: destruct (raise_for_status resp) as [[]|e];
         [|simpl; try rewrite <- app_assoc; auto].
  all: destruct (json resp) as [m|e]; [|simpl; try rewrite <- app_assoc; auto].
  all: destruct (get_view_names_from_manifest o m);
         simpl; try rewrite <- app_assoc; auto.
Qed.

Lemma padding_stripped (n : nat) : rstrip_eq (padding n) = EmptyString.
Proof. induction n as [|n IH]; simpl; [reflexivity | now rewrite IH]. Qed.

(** X15. [rstrip_eq] removes the padding at the end and nothing else: the
    string is the result followed by "=" characters only, the result does
    not end in "=", and padding added at the end does not change it. *)
Theorem rstrip_eq_removes_trailing_padding (s : string) :
  (exists n, s = (rstrip_eq s ++ padding n)%string)
  /\ last_char (rstrip_eq s) <> Some "="%char
  /\ (forall n, rstrip_eq (s ++ padding n) = rstrip_eq s).
Proof.
  split; [|split].
  - induction s as [|c s [n IH]]; [now exists 0%nat|]. simpl.
    destruct (rstrip_eq s) as [|c' r] eqn:E.
    + simpl in IH. destruct (Ascii.eqb c "="%char) eqn:Ec.
      * apply Ascii.eqb_eq in Ec. subst c. exists (S n). simpl. now rewrite <- IH.
      * exists n. simpl. now rewrite <- IH.
    + exists n. simpl. now rewrite IH at 1.
  - induction s as [|c s IH]; [discriminate|]. simpl.
    destruct (rstrip_eq s) as [|c' r] eqn:E.
    + destruct (Ascii.eqb c "="%char) eqn:Ec; [discriminate|].
      simpl. intros H. injection H as ->. discriminate.
    + exact IH.
  - intros n. induction s as [|c s IH]; simpl.
    + apply padding_stripped.
    + now rewrite IH.
Qed.

(* ===================================================================== *)
(** ** Properties of the viewer *)
(* ===================================================================== *)

Lemma prefix_app (a s : string) :
  prefix a s = true -> exists rest, s = (a ++ rest)%string.
Proof.
  revert a. induction s as [|c s IH]; intros [|c' a]; simpl; intros H;
    try discriminate.
  - now exists EmptyString.
  - now exists (String c s).
  - destruct (ascii_dec c' c) as [->|]; [|discriminate].
    destruct (IH a H) as [rest ->]. now exists rest.
Qed.

Lemma prefix_of_app (a rest : string) : prefix a (a ++ rest) = true.
Proof.
  induction a as [|c a IH]; simpl; [now destruct rest|].
  destruct (ascii_dec c c); [exact IH | contradiction].
Qed.

Lemma replace_from_skip (old new r post : string) :
  replace_from old new (String.length r) (r ++ post)
  = replace_from old new 0 post.
Proof. induction r as [|c r IH]; simpl; [reflexivity | exact IH]. Qed.

(** X16. [str_replace] for a non-empty [old]: a string in which [old] does
    not occur is returned as it is, and an occurrence at the front is
    replaced by [new], the search going on after it. *)
Theorem str_replace_occurrences (old new : string) :
  old <> EmptyString ->
  (forall s, ~ contains old s -> str_replace old new s = s)
  /\ (forall post,
        str_replace old new (old ++ post)
        = (new ++ str_replace old new post)%string).
Proof.
  intros Hold. destruct old as [|c0 old0]; [contradiction|]. split.
  - unfold str_replace. induction s as [|c s IH]; intros Hnot; [reflexivity|].
    cbn [replace_from].
    destruct (prefix (String c0 old0) (String c s)) eqn:E.
    + exfalso. apply Hnot. apply prefix_app in E. destruct E as [rest ->].
      exists EmptyString, rest. reflexivity.
    + f_equal. apply IH. intros [pre [post ->]]. apply Hnot.
      exists (String c pre), post. reflexivity.
  - intros post. unfold str_replace.
    change ((String c0 old0 ++ post)%string) with (String c0 (old0 ++ post)).
    cbn [replace_from].
    change (String c0 (old0 ++ post)) with ((String c0 old0 ++ post)%string).
    rewrite prefix_of_app. f_equal. cbn [String.length].
    rewrite Nat.sub_1_r. cbn [Nat.pred]. apply replace_from_skip.
Qed.

Lemma str_replace_occurrences_witness :
  "URN_PLACEHOLDER"%string <> EmptyString
  /\ str_replace "URN_PLACEHOLDER" "dXJu" "URN_PLACEHOLDER;URN_PLACEHOLDER"
     = "dXJu;dXJu"%string.
Proof.
  assert (Hold : "URN_PLACEHOLDER"%string <> EmptyString) by discriminate.
  split; [exact Hold|].
  exact (proj2 (str_replace_occurrences "URN_PLACEHOLDER" "dXJu" Hold)
           ";URN_PLACEHOLDER"%string).
Defined.

Lemma APSResult_init_state (v : viewer_oracle) (urn token : string) (w : world) :
  APSResult_init v urn token w
  = (w, snd (APSResult_init v urn token initial_world)).
Proof.
  unfold APSResult_init, bind, try_except, lift, ret.
  destruct (negb (String.eqb urn "")).
  - destruct (get_viewables_from_urn v token urn);
      destruct (viewer_html v); reflexivity.
  - destruct (viewer_html v); reflexivity.
Qed.

(** X17. Building the viewer page changes nothing outside; it fails only
    when the template cannot be read.  The viewables are asked for only for
    a non-empty URN, and when asking fails the page is built with the empty
    list. *)
Theorem APSResult_init_tolerates_missing_viewables
    (v : viewer_oracle) (urn token : string) (w : world) :
  fst (APSResult_init v urn token w) = w
  /\ match viewer_html v with
     | Raise e => snd (APSResult_init v urn token w) = Raise e
     | Ok template =>
         let page viewables :=
           {| html := str_replace "VIEWABLES_PLACEHOLDER" (json_dumps v viewables)
                        (str_replace "URN_PLACEHOLDER" urn
                           (str_replace "APS_TOKEN_PLACEHOLDER" token template)) |}
         in
         (urn = EmptyString -> snd (APSResult_init v urn token w) = Ok (page []))
         /\ (urn <> EmptyString ->
             match get_viewables_from_urn v token urn with
             | Ok viewables =>
                 snd (APSResult_init v urn token w) = Ok (page viewables)
             | Raise _ => snd (APSResult_init v urn token w) = Ok (page [])
             end)
     end.
Proof.
  rewrite APSResult_init_state. split; [reflexivity|]. cbn [snd].
  unfold APSResult_init, bind, try_except, lift, ret.
  destruct (viewer_html v) as [template|e].
  - split.
    + intros ->. reflexivity.
    + intros Hurn. apply String.eqb_neq in Hurn. rewrite Hurn. simpl.
      destruct (get_viewables_from_urn v token urn); reflexivity.
  - destruct (negb (String.eqb urn "")); [|reflexivity].
    destruct (get_viewables_from_urn v token urn); reflexivity.
Qed.

Lemma APSResult_init_tolerates_missing_viewables_witness :
  "dXJu"%string <> EmptyString
  /\ snd (APSResult_init viewer_without_viewables "dXJu" "token" initial_world)
     = Ok {| html := "token=token urn=dXJu views=[]" |}.
Proof.
  assert (Hurn : "dXJu"%string <> EmptyString) by discriminate.
  split; [exact Hurn|].
  exact (proj2 (proj2 (APSResult_init_tolerates_missing_viewables
                         viewer_without_viewables "dXJu" "token" initial_world))
           Hurn).
Defined.

(** X18. Both viewers ask for the token before they look at the form: a
    failing token request raises its exception whatever the form holds, and
    with a token but no file selected they raise the [UserError] of their
    check, not wrapped, having made no other call. *)
Theorem aps_views_require_token_then_file
    (o : oracle) (v : viewer_oracle) (p : params) (kw : kwargs) (w : world) :
  (forall e,
     access_token o (tokens w) = Raise e ->
     aps_view o v p kw w = (after_token w, Raise e)
     /\ aps_view_step2 o v p kw w = (after_token w, Raise e))
  /\ (forall tok,
        access_token o (tokens w) = Ok tok ->
        (input_file p = None ->
         aps_view o v p kw w
         = (after_token w,
            Raise (UserError "Please select a model in the Autodesk file field")))
        /\ (output_file p = None ->
            aps_view_step2 o v p kw w
            = (after_token w,
               Raise (UserError
                  "Please select the updated Revit file in the 'View Updated Model' section")))).
Proof.
  split.
  - intros e Htok. unfold aps_view, aps_view_step2, bind, get_access_token.
    rewrite Htok. split; reflexivity.
  - intros tok Htok. unfold aps_view, aps_view_step2, bind, get_access_token.
    rewrite Htok. split; intros ->; reflexivity.
Qed.

Lemma aps_views_require_token_then_file_witness :
  access_token (sample_oracle never_finishes) (tokens initial_world)
  = Ok "token"%string
  /\ input_file empty_form = None
  /\ aps_view (sample_oracle never_finishes) sample_viewer empty_form []
              initial_world
     = (after_token initial_world,
        Raise (UserError "Please select a model in the Autodesk file field")).
Proof.
  split; [reflexivity|]. split; [reflexivity|].
  exact (proj1 (proj2 (aps_views_require_token_then_file
                         (sample_oracle never_finishes) sample_viewer
                         empty_form [] initial_world)
                  "token"%string eq_refl)
           eq_refl).
Defined.

(** X19. The manifest has no influence on what [aps_view] shows: on the
    file selected as input it yields what [aps_view_step2], which never
    reads a manifest, yields on the same file selected as output, whether
    the manifest request succeeds, fails or names no version. *)
Theorem aps_view_ignores_the_manifest
    (o : oracle) (v : viewer_oracle) (p p' : params) (kw kw' : kwargs)
    (w : world) (f : autodesk_file) :
  input_file p = Some f ->
  output_file p' = Some f ->
  snd (aps_view o v p kw w) = snd (aps_view_step2 o v p' kw' w).
Proof.
  intros Hin Hout. unfold aps_view, aps_view_step2.
  rewrite Hin, Hout.
  unfold bind, get_access_token, get_latest_version, fetch_manifest, call,
    lift, ret, try_except.
  destruct (access_token o (tokens w)) as [tok|e]; [|reflexivity].
  destruct (latest_version o f tok) as [version|e]; [|reflexivity].
  destruct (urlsafe_b64encode o (version_urn version)) as [encoded|e];
    [|reflexivity].
  destruct (manifest_of_file o f tok) as [m|e];
    [destruct (get_revit_version_from_manifest o m) as [rv|e]|];
    cbn beta iota;
    (etransitivity; [rewrite APSResult_init_state; reflexivity|]);
    symmetry; rewrite APSResult_init_state; reflexivity.
Qed.

Lemma aps_view_ignores_the_manifest_witness :
  input_file sample_params = Some sample_file
  /\ output_file sample_params = Some sample_file
  /\ snd (aps_view manifest_missing_oracle sample_viewer sample_params []
                   initial_world)
     = snd (aps_view_step2 manifest_missing_oracle sample_viewer sample_params []
                           initial_world)
  /\ snd (aps_view manifest_missing_oracle sample_viewer sample_params []
                   initial_world)
     = Ok {| html :=
               "token=token urn=urn:adsk.wipprod:fs.file:vf.abc?version=1 views=[...]" |}.
Proof.
  split; [reflexivity|]. split; [reflexivity|]. split.
  - exact (aps_view_ignores_the_manifest manifest_missing_oracle sample_viewer
             sample_params sample_params [] [] initial_world sample_file
             eq_refl eq_refl).
  - vm_compute. reflexivity.
Defined.
